(** * OpenShift multi-cluster context registry and resource gateway

    A shallow embedding of [openshift_mcp.py] (class [OpenshiftMCP]), of
    [config.py] (the records and the loading of the clusters from the
    environment) and of [chatbot.py] (start-up, the formatting of
    prompts and answers, and the conversation loop), followed by the
    properties of the registry, of the five fetch operations, of the
    configuration loader and of the loop. *)

From Stdlib Require Import List String Ascii Bool ZArith Lia DecimalString.
From Stdlib Require Import Permutation.
Import ListNotations.
Set Warnings "-register-all".
Open Scope list_scope.
Open Scope string_scope.

(** ** Python values the code handles *)

(** Exceptions that can leave the modelled functions. *)
Inductive transport_failure : Type :=
| DNSFailure
| ConnectionRefused
| ConnectTimeout
| TLSFailure.

(** What [requests.get] is called with. *)
Record Request : Type := mkRequest {
  url : string;
  headers : list (string * string);
  verify : bool
}.

Inductive exn : Type :=
| KeyError (key : option string)   (* [d[k]] on a missing key *)
| Exception (msg : string)         (* [raise Exception(msg)] *)
| ValueError (msg : string)        (* [raise ValueError(msg)] *)
| RequestException (f : transport_failure) (request : Request)
                                   (* raised inside [requests.get] *)
| JSONDecodeError (doc : string)   (* raised by [response.json()] *)
| OpenAIError (msg : string)       (* raised by [OpenAI(...)] *)
| EOFError.                        (* raised by [input()] at end of input *)

Inductive result (A : Type) : Type :=
| Ok (a : A)
| Raise (e : exn).
Arguments Ok {A} a.
Arguments Raise {A} e.

(** Parsed JSON, as [response.json()] hands it back. *)
Inductive Json : Type :=
| JNull
| JBool (b : bool)
| JNumber (z : Z)
| JString (s : string)
| JArray (items : list Json)
| JObject (members : list (string * Json)).

(** [str(n)] for a Python [int]. *)
Definition str_int (z : Z) : string := NilZero.string_of_int (Z.to_int z).

(** ** Python's insertion-ordered [dict] with [str] keys *)

Module PyDict.
Section Dict.
Context {V : Type}.

Definition t := list (string * V).

Definition empty : t := [].

(** [d[k] = v]: an existing key keeps its position, a new one goes last. *)
Fixpoint setitem (k : string) (v : V) (d : t) : t :=
  match d with
  | [] => [(k, v)]
  | (k', v') :: d' =>
      if String.eqb k' k then (k', v) :: d' else (k', v') :: setitem k v d'
  end.

(** [d.get(k)]. *)
Fixpoint get (k : string) (d : t) : option V :=
  match d with
  | [] => None
  | (k', v') :: d' => if String.eqb k' k then Some v' else get k d'
  end.

(** [k in d]. *)
Fixpoint contains (k : string) (d : t) : bool :=
  match d with
  | [] => false
  | (k', _) :: d' => if String.eqb k' k then true else contains k d'
  end.

(** [list(d.keys())]. *)
Definition keys (d : t) : list string := map fst d.

(** [d[k]], where [k] may be [None] (never a key here). *)
Definition getitem (k : option string) (d : t) : result V :=
  match k with
  | None => Raise (KeyError None)
  | Some s =>
      match get s d with
      | Some v => Ok v
      | None => Raise (KeyError (Some s))
      end
  end.

(** [{key(x): x for x in xs}]. *)
Definition comprehension (key : V -> string) (xs : list V) : t :=
  fold_left (fun d x => setitem (key x) x d) xs empty.
End Dict.
Arguments t V : clear implicits.
End PyDict.

(** ** [openshift_mcp.py] *)

Record OpenshiftContext : Type := mkContext {
  api_url : string;
  token : string;
  namespace : string;
  name : string;
  verify_ssl : bool
}.

(** A [requests.Response]: the two attributes the code reads, and the
    outcome of its [json()] method. *)
Record Response : Type := mkResponse {
  status_code : Z;
  text : string;
  json : result Json
}.

(** The upstream cluster API together with the transport: every request
    either fails in transit or is answered. *)
Definition Upstream : Type := Request -> transport_failure + Response.

(** Computations that may raise and that record the requests they issue. *)
Definition Net (A : Type) : Type := Upstream -> list Request -> result A * list Request.

Definition ret {A} (a : A) : Net A := fun _ log => (Ok a, log).

Definition raise {A} (e : exn) : Net A := fun _ log => (Raise e, log).

Definition lift {A} (r : result A) : Net A := fun _ log => (r, log).

Definition bind {A B} (m : Net A) (k : A -> Net B) : Net B :=
  fun net log =>
    match m net log with
    | (Ok a, log') => k a net log'
    | (Raise e, log') => (Raise e, log')
    end.

Notation "x <- m ;; k" := (bind m (fun x => k))
  (at level 61, m at next level, right associativity).

(** [requests.get(url, headers=..., verify=...)]. *)
Definition requests_get (u : string) (h : list (string * string)) (v : bool)
  : Net Response :=
  fun net log =>
    let req := mkRequest u h v in
    match net req with
    | inl f => (Raise (RequestException f req), log ++ [req])%list
    | inr resp => (Ok resp, log ++ [req])%list
    end.

(** Run a computation against an upstream, from an empty request log. *)
Definition run {A} (m : Net A) (net : Upstream) : result A * list Request :=
  m net [].

Inductive ResourceKind : Type :=
| Pods
| Services
| Deployments
| ResourceQuotas
| ConfigMaps.

Module OpenshiftMCP.

(** The instance attributes [self.contexts] and [self.current_context]. *)
Record t : Type := mk {
  contexts : PyDict.t OpenshiftContext;
  current_context : option string
}.

(** [__init__]: the mapping is a dict comprehension over the list; the
    current context is the first name, or [None] for an empty list. *)
Definition __init__ (ctxs : list OpenshiftContext) : t :=
  {| contexts := PyDict.comprehension name ctxs;
     current_context :=
       match ctxs with
       | c :: _ => Some (name c)
       | [] => None
       end |}.

(** The call [OpenshiftMCP(contexts)]: no statement of [__init__] can
    raise, the index [contexts[0]] being guarded by [if contexts]. *)
Definition new (ctxs : list OpenshiftContext) : result t :=
  Ok (__init__ ctxs).

(** Whether [__init__] calls [urllib3.disable_warnings()]. *)
Definition init_disables_warnings (ctxs : list OpenshiftContext) : bool :=
  existsb (fun ctx => negb (verify_ssl ctx)) ctxs.

(** [switch_context]: the returned flag and the instance afterwards. *)
Definition switch_context (self : t) (n : string) : bool * t :=
  if PyDict.contains n (contexts self)
  then (true, {| contexts := contexts self; current_context := Some n |})
  else (false, self).

Definition list_contexts (self : t) : list string :=
  PyDict.keys (contexts self).

Definition get_current_context (self : t) : option string :=
  current_context self.

Definition _get_headers (self : t) : result (list (string * string)) :=
  match PyDict.getitem (current_context self) (contexts self) with
  | Ok ctx => Ok [("Authorization", "Bearer " ++ token ctx)]
  | Raise e => Raise e
  end.

Definition _get_base_url (self : t) : result string :=
  match PyDict.getitem (current_context self) (contexts self) with
  | Ok ctx => Ok (api_url ctx ++ "/api/v1/namespaces/" ++ namespace ctx)
  | Raise e => Raise e
  end.

Definition _handle_response (response : Response) : result Json :=
  if Z.eqb (status_code response) 200
  then json response
  else Raise (Exception ("API Error: " ++ str_int (status_code response)
                         ++ " - " ++ text response)).

Definition get_pods (self : t) : Net Json :=
  ctx <- lift (PyDict.getitem (current_context self) (contexts self)) ;;
  base <- lift (_get_base_url self) ;;
  hdrs <- lift (_get_headers self) ;;
  response <- requests_get (base ++ "/pods") hdrs (verify_ssl ctx) ;;
  lift (_handle_response response).

Definition get_services (self : t) : Net Json :=
  ctx <- lift (PyDict.getitem (current_context self) (contexts self)) ;;
  base <- lift (_get_base_url self) ;;
  hdrs <- lift (_get_headers self) ;;
  response <- requests_get (base ++ "/services") hdrs (verify_ssl ctx) ;;
  lift (_handle_response response).

Definition get_deployments (self : t) : Net Json :=
  ctx <- lift (PyDict.getitem (current_context self) (contexts self)) ;;
  hdrs <- lift (_get_headers self) ;;
  response <- requests_get
                (api_url ctx ++ "/apis/apps/v1/namespaces/" ++ namespace ctx
                 ++ "/deployments")
                hdrs (verify_ssl ctx) ;;
  lift (_handle_response response).

Definition get_resource_quotas (self : t) : Net Json :=
  ctx <- lift (PyDict.getitem (current_context self) (contexts self)) ;;
  base <- lift (_get_base_url self) ;;
  hdrs <- lift (_get_headers self) ;;
  response <- requests_get (base ++ "/resourcequotas") hdrs (verify_ssl ctx) ;;
  lift (_handle_response response).

Definition get_config_maps (self : t) : Net Json :=
  ctx <- lift (PyDict.getitem (current_context self) (contexts self)) ;;
  base <- lift (_get_base_url self) ;;
  hdrs <- lift (_get_headers self) ;;
  response <- requests_get (base ++ "/configmaps") hdrs (verify_ssl ctx) ;;
  lift (_handle_response response).

(** The five fetch operations, by resource kind. *)
Definition fetch (k : ResourceKind) (self : t) : Net Json :=
  match k with
  | Pods => get_pods self
  | Services => get_services self
  | Deployments => get_deployments self
  | ResourceQuotas => get_resource_quotas self
  | ConfigMaps => get_config_maps self
  end.

End OpenshiftMCP.

(** ** [config.py] and the start-up path of [chatbot.py] *)

Module config.
Record ClusterConfig : Type := mkClusterConfig {
  name : string;
  url : string;
  token : string;
  namespace : string
}.
End config.

(** [str.startswith] and [str.endswith]. *)
Definition startswith (s p : string) : bool := String.prefix p s.

Definition endswith (s suffix : string) : bool :=
  (String.length suffix <=? String.length s)%nat
  && String.eqb (String.substring (String.length s - String.length suffix)
                                  (String.length suffix) s)
                suffix.

(** The class [Config] of [config.py].  The process environment, as it
    is once [load_dotenv()] has run, is an argument: a [dict] from
    variable names to values. *)
Module Config.
Section Load.

(** [str.upper], which belongs to the Python runtime. *)
Variable upper : string -> string.

(** The order in which a [for] loop visits a [set], given the order in
    which its elements were added: some rearrangement of them. *)
Variable set_iter : list string -> list string.

(** [os.getenv(key, default)]. *)
Definition getenv_default (env : PyDict.t string) (key default : string)
  : string :=
  match PyDict.get key env with
  | Some v => v
  | None => default
  end.

(** [set.add]: a [set] as the list of its elements, without repetition. *)
Definition set_add (x : string) (s : list string) : list string :=
  if existsb (String.eqb x) s then s else (s ++ [x])%list.

Definition default_cluster (env : PyDict.t string) : config.ClusterConfig :=
  {| config.name := getenv_default env "DEFAULT_CLUSTER_NAME" "default";
     config.url := getenv_default env "DEFAULT_CLUSTER_URL" "";
     config.token := getenv_default env "DEFAULT_CLUSTER_TOKEN" "";
     config.namespace := getenv_default env "DEFAULT_CLUSTER_NAMESPACE" "" |}.

(** The first loop: the values of the variables [CLUSTER_..._NAME],
    except the name of the default cluster. *)
Definition cluster_names (env : PyDict.t string) : list string :=
  fold_left
    (fun names key =>
       if startswith key "CLUSTER_" && endswith key "_NAME"
       then match PyDict.get key env with
            | Some cluster_name =>
                if negb (String.eqb cluster_name
                                    (config.name (default_cluster env)))
                then set_add cluster_name names
                else names
            | None => names      (* [key] comes from [env]: not reached *)
            end
       else names)
    (PyDict.keys env) [].

(** The body of the second loop for one name: the cluster is appended
    when [os.getenv] gives a non-empty value for each of the three
    variables [CLUSTER_{NAME}_URL], [..._TOKEN] and [..._NAMESPACE]. *)
Definition load_named (env : PyDict.t string) (n : string)
  : list config.ClusterConfig :=
  let prefix := "CLUSTER_" ++ upper n ++ "_" in
  match PyDict.get (prefix ++ "URL") env,
        PyDict.get (prefix ++ "TOKEN") env,
        PyDict.get (prefix ++ "NAMESPACE") env with
  | Some u, Some t, Some ns =>
      if negb (String.eqb u "") && negb (String.eqb t "")
         && negb (String.eqb ns "")
      then [ {| config.name := n; config.url := u;
                config.token := t; config.namespace := ns |} ]
      else []
  | _, _, _ => []
  end.

Definition _load_clusters (env : PyDict.t string) : list config.ClusterConfig :=
  default_cluster env
  :: flat_map (load_named env) (set_iter (cluster_names env)).

(** The attributes [openai_api_key] and [clusters] set by [__init__]. *)
Record t : Type := mk {
  openai_api_key : option string;
  clusters : list config.ClusterConfig
}.

Definition __init__ (env : PyDict.t string) : t :=
  {| openai_api_key := PyDict.get "OPENAI_API_KEY" env;
     clusters := _load_clusters env |}.

End Load.
End Config.

Module chatbot.

(** Truth value of a [str]: only the empty string is false. *)
Definition truthy (s : string) : bool := negb (String.eqb s "").

(** The test [cluster_config.url and cluster_config.token and
    cluster_config.namespace]. *)
Definition usable (c : config.ClusterConfig) : bool :=
  truthy (config.url c) && truthy (config.token c)
  && truthy (config.namespace c).

(** The contexts built by the loop over [config.clusters];
    [verify_ssl] keeps its default [False]. *)
Fixpoint collect (clusters : list config.ClusterConfig)
  : list OpenshiftContext :=
  match clusters with
  | [] => []
  | c :: rest =>
      if usable c
      then {| api_url := config.url c;
              token := config.token c;
              namespace := config.namespace c;
              name := config.name c;
              verify_ssl := false |} :: collect rest
      else collect rest
  end.

(** [initialize_openshift], with [config.clusters] as its argument. *)
Definition initialize_openshift (clusters : list config.ClusterConfig)
  : result OpenshiftMCP.t :=
  match collect clusters with
  | [] => Raise (ValueError
                   "No valid cluster configurations found in .env file")
  | ctxs => OpenshiftMCP.new ctxs
  end.

(** How [main] goes on after its first two statements: both stand
    outside the [while] loop and its [try], so an exception of either
    ends the process before the first command is read. *)
Inductive startup : Type :=
| Fatal (e : exn)
| EnterLoop (openshift : OpenshiftMCP.t).

(** The start of [main]: [client = OpenAI(api_key=config.openai_api_key)],
    then [openshift = initialize_openshift()].  The constructor [OpenAI]
    belongs to the client library and is an argument: for the configured
    key it gives a client or raises. *)
Definition main_startup {Client : Type} (OpenAI : option string -> result Client)
           (cfg : Config.t) : startup :=
  match OpenAI (Config.openai_api_key cfg) with
  | Raise e => Fatal e
  | Ok client =>
      match initialize_openshift (Config.clusters cfg) with
      | Raise e => Fatal e
      | Ok openshift => EnterLoop openshift
      end
  end.

End chatbot.

(** ** Python [str] methods used by [chatbot.py]

    A [str] is held as the bytes of its UTF-8 encoding.  Comparison,
    concatenation, search for an ASCII text and splitting on one act on
    the bytes as they act on the characters. *)

Definition newline : ascii := ascii_of_nat 10.

Definition nl : string := String newline EmptyString.

Definition is_nl (c : ascii) : bool := Ascii.eqb c newline.

(** The characters that [str.strip()] removes, by the length of their
    encoding: U+0009..U+000D, U+001C..U+0020; U+0085 and U+00A0; U+1680,
    U+2000..U+200A, U+2028, U+2029, U+202F, U+205F and U+3000. *)
Definition space1 (c : ascii) : bool :=
  let n := N_of_ascii c in
  ((9 <=? n) && (n <=? 13) || (28 <=? n) && (n <=? 32))%N.

Definition space2 (c1 c2 : ascii) : bool :=
  let n1 := N_of_ascii c1 in
  let n2 := N_of_ascii c2 in
  ((n1 =? 194) && ((n2 =? 133) || (n2 =? 160)))%N.

Definition space3 (c1 c2 c3 : ascii) : bool :=
  let n1 := N_of_ascii c1 in
  let n2 := N_of_ascii c2 in
  let n3 := N_of_ascii c3 in
  ((n1 =? 225) && (n2 =? 154) && (n3 =? 128)
   || (n1 =? 226) && (n2 =? 128)
      && ((128 <=? n3) && (n3 <=? 138)
          || (n3 =? 168) || (n3 =? 169) || (n3 =? 175))
   || (n1 =? 226) && (n2 =? 129) && (n3 =? 159)
   || (n1 =? 227) && (n2 =? 128) && (n3 =? 128))%N.

(** Dropping the characters at one end that one of three tests accepts,
    the tests reading one, two or three bytes from that end. *)
Fixpoint lstrip_with (p1 : ascii -> bool) (p2 : ascii -> ascii -> bool)
         (p3 : ascii -> ascii -> ascii -> bool) (s : list ascii) : list ascii :=
  match s with
  | [] => s
  | c1 :: r1 =>
      if p1 c1 then lstrip_with p1 p2 p3 r1
      else match r1 with
           | [] => s
           | c2 :: r2 =>
               if p2 c1 c2 then lstrip_with p1 p2 p3 r2
               else match r2 with
                    | [] => s
                    | c3 :: r3 =>
                        if p3 c1 c2 c3 then lstrip_with p1 p2 p3 r3 else s
                    end
           end
  end.

Definition lstrip_bytes : list ascii -> list ascii :=
  lstrip_with space1 space2 space3.

(** The same from the other end, on the reversed bytes. *)
Definition rstrip_reversed : list ascii -> list ascii :=
  lstrip_with space1 (fun c2 c1 => space2 c1 c2)
              (fun c3 c2 c1 => space3 c1 c2 c3).

Definition strip_bytes (s : list ascii) : list ascii :=
  rev (rstrip_reversed (rev (lstrip_bytes s))).

(** [s.strip()]. *)
Definition strip (s : string) : string :=
  string_of_list_ascii (strip_bytes (list_ascii_of_string s)).

(** [needle in s]. *)
Fixpoint str_in (needle s : string) : bool :=
  String.prefix needle s
  || match s with
     | EmptyString => false
     | String _ rest => str_in needle rest
     end.

(** [s[n:]]. *)
Fixpoint drop (n : nat) (s : string) : string :=
  match n, s with
  | O, _ => s
  | S n', String _ rest => drop n' rest
  | S _, EmptyString => EmptyString
  end.

Definition cons_head (c : ascii) (l : list (list ascii)) : list (list ascii) :=
  match l with
  | h :: t => (c :: h) :: t
  | [] => [[c]]
  end.

(** [s.split('\n\n')]: the pieces between the occurrences of two
    newlines, found from the left and not overlapping. *)
Fixpoint split_nn (s : list ascii) : list (list ascii) :=
  match s with
  | [] => [[]]
  | c :: rest =>
      match rest with
      | d :: rest' =>
          if is_nl c && is_nl d then [] :: split_nn rest'
          else cons_head c (split_nn rest)
      | [] => cons_head c (split_nn rest)
      end
  end.

(** ['\n\n'.join(l)]. *)
Fixpoint join_nn (l : list (list ascii)) : list ascii :=
  match l with
  | [] => []
  | [x] => x
  | x :: rest => (x ++ newline :: newline :: join_nn rest)%list
  end.

Definition nonempty (x : list ascii) : bool :=
  match x with
  | [] => false
  | _ :: _ => true
  end.

(** The truth value of a parsed JSON value in an [if]. *)
Definition json_truthy (j : Json) : bool :=
  match j with
  | JNull => false
  | JBool b => b
  | JNumber z => negb (Z.eqb z 0)
  | JString s => negb (String.eqb s "")
  | JArray items => match items with [] => false | _ => true end
  | JObject members => match members with [] => false | _ => true end
  end.

(** ** The conversation loop of [chatbot.py] *)

(** A chat message: its role and its content. *)
Definition message : Type := (string * string)%type.

(** The message that concludes one pass of the loop: [Goodbye] on
    [exit] and on a keyboard interrupt, [ApiError] from the inner
    [except], [ErrorText] from the outer one. *)
Inductive output : Type :=
| Goodbye
| HelpText
| ClusterList (marked : list (bool * string))
| Switched (cluster_name : string)
| ClusterNotFound (cluster_name : string)
| Results (cluster : option string) (response : string)
| NoMatch
| ApiError (e : exn)
| ErrorText (e : exn).

(** One pass of the loop: what it prints, whether the loop goes on, the
    registry afterwards, the requests sent to the cluster and the message
    lists sent to the text-generation service. *)
Record turn : Type := mkTurn {
  printed : output;
  goes_on : bool;
  registry : OpenshiftMCP.t;
  requests : list Request;
  asked : list (list message)
}.



Module chat.
Section Chat.

(** [str.lower], [str.upper] and [json.dumps(data, indent=2)], which
    belong to the Python runtime. *)
Variables lower upper : string -> string.
Variable json_dumps : Json -> string.

(** The text-generation service: the content of the first choice for a
    list of messages, or the exception of the call. *)
Variable client : list message -> result string.

Definition format_openai_prompt (resource_type : string) (data : Json) : string :=
  "Analyze the OpenShift " ++ resource_type
  ++ " data and provide a structured summary in this exact format:" ++ nl
  ++ nl
  ++ "SUMMARY" ++ nl
  ++ "- One-line overview of what you found" ++ nl
  ++ nl
  ++ "RESOURCES [" ++ upper resource_type ++ "]" ++ nl
  ++ "- List each resource with name and type" ++ nl
  ++ "- Include only key attributes like status, image, or ports" ++ nl
  ++ "- Max 3 attributes per resource" ++ nl
  ++ nl
  ++ "STATUS" ++ nl
  ++ "- Running/Failed/Pending count (for pods)" ++ nl
  ++ "- Available/Total replicas (for deployments)" ++ nl
  ++ "- Active/Inactive status (for services)" ++ nl
  ++ nl
  ++ "Do not include any other information. Keep each bullet point to one line."
  ++ nl
  ++ "Data: " ++ json_dumps data.

Definition format_response_bytes (response : list ascii) : list ascii :=
  (newline :: newline
   :: join_nn (filter nonempty (map strip_bytes (split_nn response))))%list.

Definition format_response (response : string) : string :=
  string_of_list_ascii (format_response_bytes (list_ascii_of_string response)).

(** The name [get_openai_response] gives to the data in its prompt. *)
Definition resource_type_of (user_message : string) : string :=
  if str_in "pod" user_message then "pods"
  else if str_in "service" user_message then "services"
  else if str_in "deployment" user_message then "deployments"
  else if str_in "quota" user_message then "resource quotas"
  else if str_in "configmap" user_message then "config maps"
  else "resource".

(** The messages [get_openai_response] sends. *)
Definition messages_for (system_prompt user_message : string)
           (context_data : option Json) : list message :=
  ([("system", system_prompt)]
   ++ match context_data with
      | Some data =>
          if json_truthy data
          then [("system",
                 format_openai_prompt (resource_type_of user_message) data)]
          else []
      | None => []
      end
   ++ [("user", user_message)])%list.

Definition get_openai_response (system_prompt user_message : string)
           (context_data : option Json) : result string :=
  match client (messages_for system_prompt user_message context_data) with
  | Ok content => Ok (format_response content)
  | Raise e => Raise e
  end.

Definition system_prompt : string :=
  "You are an OpenShift cluster analyzer. Provide only the requested information in a structured format."
  ++ nl
  ++ "    Keep responses concise and focused on facts. Do not include explanations or technical details unless specifically asked.".

(** The fetch that [main] chooses for a command, if any. *)
Definition select_fetch (user_input : string) : option ResourceKind :=
  if str_in "pod" user_input then Some Pods
  else if str_in "service" user_input then Some Services
  else if str_in "deployment" user_input then Some Deployments
  else if str_in "quota" user_input then Some ResourceQuotas
  else if str_in "configmap" user_input then Some ConfigMaps
  else None.

(** The body of the inner [try] of the loop of [main] for one line that
    [input] returned, against one state of the cluster API, when no
    keyboard interrupt arrives; [pass] below adds the two outer [except]
    clauses.  The constructors of [output] stand for the texts printed. *)
Definition step (line : string) (net : Upstream) (openshift : OpenshiftMCP.t)
  : turn :=
  let user_input := lower (strip line) in
  if String.eqb user_input "exit" then
    mkTurn Goodbye false openshift [] []
  else if String.eqb user_input "help" then
    mkTurn HelpText true openshift [] []
  else if String.eqb user_input "clusters" then
    let current := OpenshiftMCP.get_current_context openshift in
    mkTurn (ClusterList
              (map (fun cluster =>
                      (match current with
                       | Some n => String.eqb cluster n
                       | None => false
                       end, cluster))
                   (OpenshiftMCP.list_contexts openshift)))
           true openshift [] []
  else if startswith user_input "use " then
    let cluster_name := strip (drop 4 user_input) in
    let '(found, openshift') := OpenshiftMCP.switch_context openshift cluster_name in
    if found
    then mkTurn (Switched cluster_name) true openshift' [] []
    else mkTurn (ClusterNotFound cluster_name) true openshift' [] []
  else
    let '(fetched, sent) :=
      match select_fetch user_input with
      | Some k =>
          match run (OpenshiftMCP.fetch k openshift) net with
          | (Ok data, sent) => (Ok (Some data), sent)
          | (Raise e, sent) => (Raise e, sent)
          end
      | None => (Ok None, [])
      end in
    match fetched with
    | Raise e => mkTurn (ApiError e) true openshift sent []
    | Ok context_data =>
        if match context_data with
           | Some data => json_truthy data
           | None => false
           end
        then
          let msgs := messages_for system_prompt user_input context_data in
          match get_openai_response system_prompt user_input context_data with
          | Ok response =>
              mkTurn (Results (OpenshiftMCP.get_current_context openshift)
                              response)
                     true openshift sent [msgs]
          | Raise e => mkTurn (ApiError e) true openshift sent [msgs]
          end
        else mkTurn NoMatch true openshift sent []
    end.



(** The loop without interrupts: the passes made for the lines read, up
    to the first one that leaves it. *)
Fixpoint session (lines : list (string * Upstream)) (openshift : OpenshiftMCP.t)
  : list turn :=
  match lines with
  | [] => []
  | (line, net) :: rest =>
      let t := step line net openshift in
      t :: (if goes_on t then session rest (registry t) else [])
  end.

End Chat.
End chat.

(** ** Method calls on one instance *)

(** A call of one of the public methods; a fetch comes with the upstream
    it meets. *)
Inductive call : Type :=
| CallSwitch (n : string)
| CallList
| CallCurrent
| CallFetch (k : ResourceKind) (net : Upstream).

Inductive returned : Type :=
| RetBool (b : bool)
| RetNames (l : list string)
| RetCurrent (n : option string)
| RetFetch (r : result Json).

(** One call: what it returns and the instance afterwards.  Only
    [switch_context] assigns to an attribute of [self]. *)
Definition perform (c : call) (self : OpenshiftMCP.t)
  : returned * OpenshiftMCP.t :=
  match c with
  | CallSwitch n =>
      let '(b, self') := OpenshiftMCP.switch_context self n in
      (RetBool b, self')
  | CallList => (RetNames (OpenshiftMCP.list_contexts self), self)
  | CallCurrent => (RetCurrent (OpenshiftMCP.get_current_context self), self)
  | CallFetch k net => (RetFetch (fst (run (OpenshiftMCP.fetch k self) net)), self)
  end.

Fixpoint perform_all (cs : list call) (self : OpenshiftMCP.t) : OpenshiftMCP.t :=
  match cs with
  | [] => self
  | c :: rest => perform_all rest (snd (perform c self))
  end.

(** ** Vocabulary of the properties *)

(** The registry invariant: the current name is a key of the mapping. *)
Definition current_is_key (self : OpenshiftMCP.t) : Prop :=
  exists n, OpenshiftMCP.current_context self = Some n
            /\ In n (OpenshiftMCP.list_contexts self).

(** The names of a list, each kept at its first occurrence. *)
Fixpoint first_occurrences (l : list string) : list string :=
  match l with
  | [] => []
  | n :: rest =>
      n :: filter (fun m => negb (String.eqb n m)) (first_occurrences rest)
  end.

(** The last profile of a list that bears a given name. *)
Definition last_named (n : string) (ctxs : list OpenshiftContext)
  : option OpenshiftContext :=
  find (fun c => String.eqb (name c) n) (rev ctxs).

(** [sub] occurs in [s]. *)
Definition occurs_in (sub s : string) : Prop :=
  exists pre post, s = pre ++ sub ++ post.

(** The path segment of a resource kind in the cluster API. *)
Definition path_segment (k : ResourceKind) : string :=
  match k with
  | Pods => "pods"
  | Services => "services"
  | Deployments => "deployments"
  | ResourceQuotas => "resourcequotas"
  | ConfigMaps => "configmaps"
  end.

(** The URL the cluster API documents for a kind: the apps group for
    deployments, the core v1 group for the others. *)
Definition api_path (k : ResourceKind) (ctx : OpenshiftContext) : string :=
  match k with
  | Deployments =>
      api_url ctx ++ "/apis/apps/v1/namespaces/" ++ namespace ctx
      ++ "/" ++ path_segment k
  | _ =>
      api_url ctx ++ "/api/v1/namespaces/" ++ namespace ctx
      ++ "/" ++ path_segment k
  end.

(** The one request a fetch is expected to send for a profile. *)
Definition request_for (k : ResourceKind) (ctx : OpenshiftContext) : Request :=
  {| url := api_path k ctx;
     headers := [("Authorization", "Bearer " ++ token ctx)];
     verify := verify_ssl ctx |}.



(** A name is collected when some variable [CLUSTER_..._NAME] holds it
    and it is not the default cluster's name. *)
Definition declared (env : PyDict.t string) (n : string) : Prop :=
  n <> config.name (Config.default_cluster env)
  /\ exists key, In key (PyDict.keys env)
                 /\ startswith key "CLUSTER_" = true
                 /\ endswith key "_NAME" = true
                 /\ PyDict.get key env = Some n.

(** No character accepted by the three tests at the start of [s]. *)
Definition clean_start (p1 : ascii -> bool) (p2 : ascii -> ascii -> bool)
           (p3 : ascii -> ascii -> ascii -> bool) (s : list ascii) : Prop :=
  match s with
  | [] => True
  | c1 :: r1 =>
      p1 c1 = false
      /\ match r1 with
         | [] => True
         | c2 :: r2 =>
             p2 c1 c2 = false
             /\ match r2 with
                | [] => True
                | c3 :: _ => p3 c1 c2 c3 = false
                end
         end
  end.

(** No white space at either end. *)
Definition stripped (s : list ascii) : Prop :=
  clean_start space1 space2 space3 s
  /\ clean_start space1 (fun c2 c1 => space2 c1 c2)
                 (fun c3 c2 c1 => space3 c1 c2 c3) (rev s).

(** No two newlines in a row. *)
Fixpoint nn_free (s : list ascii) : bool :=
  match s with
  | [] => true
  | c :: rest =>
      match rest with
      | [] => true
      | d :: _ => negb (is_nl c && is_nl d) && nn_free rest
      end
  end.

(** Some byte is an ASCII capital letter. *)
Definition is_upper_byte (c : ascii) : bool :=
  let n := N_of_ascii c in ((65 <=? n) && (n <=? 90))%N.

Definition has_upper (s : string) : bool :=
  existsb is_upper_byte (list_ascii_of_string s).

(** The name under which a resource kind appears in the prompt. *)
Definition kind_label (k : ResourceKind) : string :=
  match k with
  | Pods => "pods"
  | Services => "services"
  | Deployments => "deployments"
  | ResourceQuotas => "resource quotas"
  | ConfigMaps => "config maps"
  end.

(** A command that is none of [exit], [help], [clusters] and [use ...]. *)
Definition is_query (user_input : string) : bool :=
  negb (String.eqb user_input "exit")
  && negb (String.eqb user_input "help")
  && negb (String.eqb user_input "clusters")
  && negb (startswith user_input "use ").

(** ** Sample data *)

Definition cluster_a : OpenshiftContext :=
  mkContext "https://a.example:6443" "token-a" "dev" "a" false.

Definition cluster_b : OpenshiftContext :=
  mkContext "https://b.example:6443" "token-b" "prod" "b" true.

(** A second profile that reuses the name of [cluster_a]. *)
Definition cluster_a' : OpenshiftContext :=
  mkContext "https://a2.example:6443" "token-a2" "qa" "a" false.

Definition dquote : string := String (ascii_of_nat 34) EmptyString.

(** An upstream that answers every request with 200 and an empty list. *)
Definition empty_items : Response :=
  {| status_code := 200;
     text := "{" ++ dquote ++ "items" ++ dquote ++ ": []}";
     json := Ok (JObject [("items", JArray [])]) |}.

Definition upstream_ok : Upstream := fun _ => inr empty_items.

(** An upstream that refuses every request with 403. *)
Definition forbidden : Response :=
  {| status_code := 403;
     text := "Forbidden";
     json := Raise (JSONDecodeError "Forbidden") |}.

Definition upstream_403 : Upstream := fun _ => inr forbidden.

(** A cluster that cannot be reached. *)
Definition upstream_down : Upstream := fun _ => inl ConnectionRefused.

(** A configuration entry without URL, token or namespace, as
    [_load_clusters] builds it when the environment is empty. *)
Definition blank_default : config.ClusterConfig :=
  config.mkClusterConfig "default" "" "" "".

(** Two complete configuration entries. *)
Definition config_a : config.ClusterConfig :=
  config.mkClusterConfig "a" "https://a.example:6443" "token-a" "dev".

Definition config_b : config.ClusterConfig :=
  config.mkClusterConfig "b" "https://b.example:6443" "token-b" "prod".

(** [str.upper] on ASCII text, and a [set] visited in insertion order:
    one possible behaviour of the runtime, for the examples. *)
Definition upper_char (c : ascii) : ascii :=
  let n := nat_of_ascii c in
  if ((97 <=? n) && (n <=? 122))%nat then ascii_of_nat (n - 32) else c.

Fixpoint upper_ascii (s : string) : string :=
  match s with
  | EmptyString => EmptyString
  | String c rest => String (upper_char c) (upper_ascii rest)
  end.

Definition insertion_order (l : list string) : list string := l.

(** An environment with a complete default cluster, a complete cluster
    [prod] and a cluster [qa] whose variables are named after its number
    instead of its name. *)
Definition sample_env : PyDict.t string :=
  [ ("DEFAULT_CLUSTER_URL", "https://a.example:6443");
    ("DEFAULT_CLUSTER_TOKEN", "token-a");
    ("DEFAULT_CLUSTER_NAMESPACE", "dev");
    ("CLUSTER_1_NAME", "prod");
    ("CLUSTER_PROD_URL", "https://b.example:6443");
    ("CLUSTER_PROD_TOKEN", "token-b");
    ("CLUSTER_PROD_NAMESPACE", "live");
    ("CLUSTER_2_NAME", "qa");
    ("CLUSTER_2_URL", "https://c.example:6443");
    ("CLUSTER_2_TOKEN", "token-c");
    ("CLUSTER_2_NAMESPACE", "test") ].

(** [str.lower] on ASCII text, a stand-in for [json.dumps] and a
    text-generation service with one fixed answer, for the examples. *)
Definition lower_char (c : ascii) : ascii :=
  let n := nat_of_ascii c in
  if ((65 <=? n) && (n <=? 90))%nat then ascii_of_nat (n + 32) else c.

Fixpoint lower_ascii (s : string) : string :=
  match s with
  | EmptyString => EmptyString
  | String c rest => String (lower_char c) (lower_ascii rest)
  end.

Definition sample_dumps (j : Json) : string := "{...}".

Definition sample_client (msgs : list message) : result string :=
  Ok ("SUMMARY" ++ nl ++ "- one pod" ++ nl ++ nl ++ nl ++ "  STATUS  " ++ nl).

(** An upstream that answers every request with 200 and an empty object. *)
Definition empty_object : Response :=
  {| status_code := 200; text := "{}"; json := Ok (JObject []) |}.

Definition upstream_empty : Upstream := fun _ => inr empty_object.

(** The loop of [main] with the sample runtime. *)
Definition sample_step : string -> Upstream -> OpenshiftMCP.t -> turn :=
  chat.step lower_ascii upper_ascii sample_dumps sample_client.

(** A profile whose name has a capital letter. *)
Definition cluster_P : OpenshiftContext :=
  mkContext "https://p.example:6443" "token-p" "live" "Prod" false.

(** A constructor of the client library that raises when it is given
    no key, and the sample environment with a key. *)
Definition sample_OpenAI (api_key : option string) : result unit :=
  match api_key with
  | Some _ => Ok tt
  | None => Raise (OpenAIError "The api_key client option must be set")
  end.

Definition sample_env_keyed : PyDict.t string :=
  ("OPENAI_API_KEY", "sk-sample") :: sample_env.

(** ** Facts about the ordered dictionary *)

Section DictFacts.
Context {V : Type}.
Implicit Types (d : PyDict.t V) (k : string) (v : V).

Lemma contains_keys d k : PyDict.contains k d = true <-> In k (PyDict.keys d).
Proof.
  induction d as [|[k' v'] d IH]; simpl.
  - split; [discriminate | tauto].
  - destruct (String.eqb_spec k' k) as [->|Hne].
    + split; auto.
    + rewrite IH. split; [tauto | intros [H|H]; [congruence | exact H]].
Qed.

Lemma contains_false_keys d k :
  PyDict.contains k d = false <-> ~ In k (PyDict.keys d).
Proof.
  rewrite <- contains_keys. destruct (PyDict.contains k d); split; congruence.
Qed.

Lemma contains_get d k :
  PyDict.contains k d = true <-> exists v, PyDict.get k d = Some v.
Proof.
  induction d as [|[k' v'] d IH]; simpl.
  - split; [discriminate | intros [v H]; discriminate].
  - destruct (String.eqb k' k); [split; eauto | exact IH].
Qed.

Lemma keys_setitem d k v :
  PyDict.keys (PyDict.setitem k v d)
  = if PyDict.contains k d then PyDict.keys d
    else (PyDict.keys d ++ [k])%list.
Proof.
  induction d as [|[k' v'] d IH]; simpl; [reflexivity|].
  destruct (String.eqb k' k); simpl; [reflexivity|].
  rewrite IH. destruct (PyDict.contains k d); reflexivity.
Qed.

Lemma get_setitem d k v k0 :
  PyDict.get k0 (PyDict.setitem k v d)
  = if String.eqb k k0 then Some v else PyDict.get k0 d.
Proof.
  induction d as [|[k' v'] d IH]; simpl.
  - destruct (String.eqb k k0); reflexivity.
  - destruct (String.eqb_spec k' k) as [->|Hne]; simpl.
    + destruct (String.eqb k k0); reflexivity.
    + destruct (String.eqb_spec k' k0) as [->|Hne0].
      * destruct (String.eqb_spec k k0); [congruence | reflexivity].
      * exact IH.
Qed.

Lemma NoDup_keys_setitem d k v :
  NoDup (PyDict.keys d) -> NoDup (PyDict.keys (PyDict.setitem k v d)).
Proof.
  intros Hd. rewrite keys_setitem.
  destruct (PyDict.contains k d) eqn:Hc; [exact Hd|].
  apply contains_false_keys in Hc.
  apply NoDup_rev in Hd. rewrite <- (rev_involutive (_ ++ _)%list).
  apply NoDup_rev. rewrite rev_app_distr. simpl.
  constructor; [rewrite <- in_rev; exact Hc | exact Hd].
Qed.

End DictFacts.

(** ** Facts about dict comprehensions *)

Section Comprehension.
Context {V : Type}.
Variable key : V -> string.
Implicit Types (d : PyDict.t V) (k : string) (v : V).

Let step := fun d (x : V) => PyDict.setitem (key x) x d.
Let fresh d := fun m => negb (PyDict.contains m d).

Lemma NoDup_keys_fold xs : forall d,
  NoDup (PyDict.keys d) -> NoDup (PyDict.keys (fold_left step xs d)).
Proof.
  induction xs as [|x xs IH]; intros d Hd; simpl; [exact Hd|].
  apply IH. apply NoDup_keys_setitem. exact Hd.
Qed.

Lemma find_append {A} (p : A -> bool) (l1 l2 : list A) :
  find p (l1 ++ l2)%list
  = match find p l1 with Some a => Some a | None => find p l2 end.
Proof.
  induction l1 as [|a l1 IH]; simpl; [reflexivity|].
  destruct (p a); [reflexivity | exact IH].
Qed.

(** Later items overwrite earlier ones. *)
Lemma get_fold xs k : forall d,
  PyDict.get k (fold_left step xs d)
  = match find (fun x => String.eqb (key x) k) (rev xs) with
    | Some x => Some x
    | None => PyDict.get k d
    end.
Proof.
  induction xs as [|x xs IH]; intros d; simpl; [reflexivity|].
  rewrite IH. unfold step. rewrite get_setitem.
  rewrite find_append.
  destruct (find _ (rev xs)); [reflexivity|]. simpl.
  destruct (String.eqb (key x) k); reflexivity.
Qed.

Lemma filter_filter {A} (p q : A -> bool) (l : list A) :
  filter p (filter q l) = filter (fun a => p a && q a) l.
Proof.
  induction l as [|a l IH]; simpl; [reflexivity|].
  destruct (q a); simpl; rewrite ?andb_true_r, ?andb_false_r;
    [destruct (p a)|]; rewrite IH; reflexivity.
Qed.

Lemma contains_setitem d k v m :
  PyDict.contains m (PyDict.setitem k v d)
  = String.eqb k m || PyDict.contains m d.
Proof.
  induction d as [|[k' v'] d IH]; simpl.
  - destruct (String.eqb k m); reflexivity.
  - destruct (String.eqb_spec k' k) as [->|Hne]; simpl.
    + destruct (String.eqb k m); reflexivity.
    + destruct (String.eqb k' m); [rewrite orb_true_r; reflexivity | exact IH].
Qed.

(** Keys come out in the order of their first insertion. *)
Lemma keys_fold xs : forall d,
  PyDict.keys (fold_left step xs d)
  = (PyDict.keys d ++ filter (fresh d) (first_occurrences (map key xs)))%list.
Proof.
  induction xs as [|x xs IH]; intros d; simpl.
  - rewrite app_nil_r. reflexivity.
  - rewrite IH. unfold step. rewrite keys_setitem.
    assert (Hext : forall l,
      filter (fresh (PyDict.setitem (key x) x d)) l
      = filter (fun a => fresh d a && negb (String.eqb (key x) a)) l).
    { intros l. apply filter_ext. intros a. unfold fresh.
      rewrite contains_setitem.
      destruct (String.eqb (key x) a), (PyDict.contains a d); reflexivity. }
    rewrite Hext. unfold fresh. cbn [filter].
    destruct (PyDict.contains (key x) d) eqn:Hc; cbn [negb].
    + rewrite filter_filter. reflexivity.
    + rewrite filter_filter, <- app_assoc. reflexivity.
Qed.

Lemma keys_comprehension xs :
  PyDict.keys (PyDict.comprehension key xs) = first_occurrences (map key xs).
Proof.
  unfold PyDict.comprehension. fold step. rewrite keys_fold. simpl.
  induction (first_occurrences (map key xs)) as [|a l IH]; simpl; congruence.
Qed.

Lemma get_comprehension xs k :
  PyDict.get k (PyDict.comprehension key xs)
  = find (fun x => String.eqb (key x) k) (rev xs).
Proof.
  unfold PyDict.comprehension. fold step. rewrite get_fold.
  destruct (find _ _); reflexivity.
Qed.

Lemma NoDup_keys_comprehension xs :
  NoDup (PyDict.keys (PyDict.comprehension key xs)).
Proof. apply NoDup_keys_fold. constructor. Qed.

End Comprehension.

Lemma in_first_occurrences (l : list string) (n : string) :
  In n (first_occurrences l) <-> In n l.
Proof.
  induction l as [|a l IH]; simpl; [tauto|].
  rewrite filter_In, IH.
  destruct (String.eqb_spec a n) as [->|Hne]; simpl.
  - split; auto.
  - split; [tauto | intros [H|H]; [congruence | auto]].
Qed.

(** ** The registry *)

Section Registry.
Import OpenshiftMCP.

Lemma perform_contexts (c : call) (self : t) :
  contexts (snd (perform c self)) = contexts self.
Proof.
  destruct c; simpl; try reflexivity.
  unfold switch_context. destruct (PyDict.contains n (contexts self)); reflexivity.
Qed.

Lemma perform_all_contexts (cs : list call) : forall self,
  contexts (perform_all cs self) = contexts self.
Proof.
  induction cs as [|c cs IH]; intros self; simpl; [reflexivity|].
  rewrite IH. apply perform_contexts.
Qed.

Lemma perform_current_is_key (c : call) (self : t) :
  current_is_key self -> current_is_key (snd (perform c self)).
Proof.
  intros Hinv. destruct c; simpl; try exact Hinv.
  unfold switch_context.
  destruct (PyDict.contains n (contexts self)) eqn:Hc; simpl; [|exact Hinv].
  exists n. split; [reflexivity|].
  apply contains_keys. exact Hc.
Qed.

Lemma perform_all_current_is_key (cs : list call) : forall self,
  current_is_key self -> current_is_key (perform_all cs self).
Proof.
  induction cs as [|c cs IH]; intros self Hinv; simpl; [exact Hinv|].
  apply IH. apply perform_current_is_key. exact Hinv.
Qed.

Lemma init_current_is_key (c : OpenshiftContext) (cs : list OpenshiftContext) :
  current_is_key (__init__ (c :: cs)).
Proof.
  exists (name c). split; [reflexivity|].
  unfold list_contexts. simpl contexts.
  rewrite keys_comprehension. simpl. left. reflexivity.
Qed.

Lemma reachable_current_is_key (c : OpenshiftContext) (cs : list OpenshiftContext)
      (calls : list call) :
  current_is_key (perform_all calls (__init__ (c :: cs))).
Proof. apply perform_all_current_is_key, init_current_is_key. Qed.

(** Every key of the mapping is the name of the profile stored under it. *)
Lemma init_get_name (cs : list OpenshiftContext) (n : string) (p : OpenshiftContext) :
  PyDict.get n (contexts (__init__ cs)) = Some p -> name p = n.
Proof.
  simpl. rewrite get_comprehension. intros H.
  apply find_some in H. destruct H as [_ H].
  apply String.eqb_eq. exact H.
Qed.

Lemma perform_all_empty (cs : list call) : forall self,
  contexts self = [] -> current_context self = None ->
  current_context (perform_all cs self) = None.
Proof.
  induction cs as [|c cs IH]; intros self Hc Hn; simpl; [exact Hn|].
  apply IH.
  - rewrite perform_contexts. exact Hc.
  - destruct c; simpl; try exact Hn.
    unfold switch_context. rewrite Hc. simpl. exact Hn.
Qed.

Lemma last_named_last (l1 l2 : list OpenshiftContext) (p : OpenshiftContext) :
  (forall q, In q l2 -> name q <> name p) ->
  last_named (name p) (l1 ++ p :: l2) = Some p.
Proof.
  intros Hl2. unfold last_named.
  rewrite rev_app_distr. simpl. rewrite <- app_assoc, find_append.
  destruct (find _ (rev l2)) as [q|] eqn:Hf.
  - apply find_some in Hf. destruct Hf as [Hin Hq].
    apply in_rev in Hin. apply String.eqb_eq in Hq.
    elim (Hl2 q Hin Hq).
  - simpl. rewrite String.eqb_refl. reflexivity.
Qed.

End Registry.

(** ** Properties of the registry *)

(** C1: for a registry built from a non-empty profile list, after
    construction and after any sequence of calls of [switch_context],
    [list_contexts], [get_current_context] and the five fetch operations
    (against any upstream, so failed fetches included), the current name
    is a key of the profile mapping. *)
Theorem C1_current_never_dangling :
  forall (c : OpenshiftContext) (cs : list OpenshiftContext) (calls : list call),
    current_is_key (perform_all calls (OpenshiftMCP.__init__ (c :: cs))).
Proof.
  intros c cs calls. apply reachable_current_is_key.
Qed.

(** C2: constructing the registry from a non-empty list builds the
    name-to-profile mapping (each name bound to the last profile bearing
    it, no other key) and sets the current context to the first profile's
    name; [get_current_context] right after construction gives that name,
    and the profile stored under it bears the name of [profiles[0]]. *)
Theorem C2_init_current_is_first :
  forall (c : OpenshiftContext) (cs : list OpenshiftContext),
    let self := OpenshiftMCP.__init__ (c :: cs) in
    OpenshiftMCP.get_current_context self = Some (name c)
    /\ (forall n, PyDict.get n (OpenshiftMCP.contexts self)
                  = last_named n (c :: cs))
    /\ exists p,
         PyDict.getitem (OpenshiftMCP.get_current_context self)
                        (OpenshiftMCP.contexts self) = Ok p
         /\ name p = name c.
Proof.
  intros c cs self. split; [reflexivity|]. split.
  - intros n. unfold self. simpl OpenshiftMCP.contexts.
    apply get_comprehension.
  - destruct (init_current_is_key c cs) as [n [Hn Hin]].
    simpl in Hn. injection Hn as <-.
    apply contains_keys, contains_get in Hin. destruct Hin as [p Hp].
    exists p. split.
    + unfold self. simpl OpenshiftMCP.get_current_context.
      unfold PyDict.getitem. rewrite Hp. reflexivity.
    + apply (init_get_name (c :: cs)). exact Hp.
Qed.

(** C3: [switch_context] never raises; for a registered name it returns
    [True] and makes that name current, leaving the mapping as it was;
    for any other name it returns [False] and leaves the whole instance
    unchanged, also when called twice in a row. *)
Theorem C3_switch_context :
  forall (self : OpenshiftMCP.t) (n : string),
    (In n (OpenshiftMCP.list_contexts self) ->
       OpenshiftMCP.switch_context self n
       = (true, {| OpenshiftMCP.contexts := OpenshiftMCP.contexts self;
                   OpenshiftMCP.current_context := Some n |}))
    /\ (~ In n (OpenshiftMCP.list_contexts self) ->
          OpenshiftMCP.switch_context self n = (false, self)
          /\ OpenshiftMCP.switch_context
               (snd (OpenshiftMCP.switch_context self n)) n = (false, self)).
Proof.
  intros self n. unfold OpenshiftMCP.switch_context, OpenshiftMCP.list_contexts.
  split; intros H.
  - apply contains_keys in H. rewrite H. reflexivity.
  - apply contains_false_keys in H. rewrite H. simpl. rewrite H. split; reflexivity.
Qed.

Lemma C3_switch_context_witness :
  OpenshiftMCP.switch_context (OpenshiftMCP.__init__ [cluster_a; cluster_b]) "b"
  = (true, {| OpenshiftMCP.contexts :=
                OpenshiftMCP.contexts (OpenshiftMCP.__init__ [cluster_a; cluster_b]);
              OpenshiftMCP.current_context := Some "b" |})
  /\ OpenshiftMCP.switch_context (OpenshiftMCP.__init__ [cluster_a; cluster_b]) "c"
     = (false, OpenshiftMCP.__init__ [cluster_a; cluster_b]).
Proof.
  split.
  - apply (C3_switch_context (OpenshiftMCP.__init__ [cluster_a; cluster_b]) "b").
    simpl. right. left. reflexivity.
  - apply (C3_switch_context (OpenshiftMCP.__init__ [cluster_a; cluster_b]) "c").
    simpl. intros [H|[H|[]]]; discriminate H.
Defined.

(** C9: [list_contexts] returns the names passed at construction, each
    exactly once, in the order of their first occurrence in the input;
    no later call changes that list. *)
Theorem C9_list_contexts :
  forall (cs : list OpenshiftContext) (calls : list call),
    let self := perform_all calls (OpenshiftMCP.__init__ cs) in
    OpenshiftMCP.list_contexts self = first_occurrences (map name cs)
    /\ NoDup (OpenshiftMCP.list_contexts self)
    /\ (forall n, In n (OpenshiftMCP.list_contexts self) <-> In n (map name cs)).
Proof.
  intros cs calls self.
  assert (Hk : OpenshiftMCP.list_contexts self = first_occurrences (map name cs)).
  { unfold self, OpenshiftMCP.list_contexts. rewrite perform_all_contexts.
    simpl. apply keys_comprehension. }
  split; [exact Hk|]. split.
  - unfold self, OpenshiftMCP.list_contexts. rewrite perform_all_contexts.
    simpl. apply NoDup_keys_comprehension.
  - intros n. rewrite Hk. apply in_first_occurrences.
Qed.

(** C10: when two or more profiles of the input bear the same name,
    construction still succeeds; the mapping binds a name to the last
    profile of the list that bears it; [list_contexts] holds every name
    of the input exactly once, at the place of its first occurrence, and
    no other name, so it is strictly shorter than the input. *)
Theorem C10_duplicate_names :
  forall (cs : list OpenshiftContext),
    ~ NoDup (map name cs) ->
    let self := OpenshiftMCP.__init__ cs in
    OpenshiftMCP.new cs = Ok self
    /\ (forall l1 p l2,
          cs = (l1 ++ p :: l2)%list ->
          (forall q, In q l2 -> name q <> name p) ->
          PyDict.get (name p) (OpenshiftMCP.contexts self) = Some p)
    /\ OpenshiftMCP.list_contexts self = first_occurrences (map name cs)
    /\ (forall n, In n (OpenshiftMCP.list_contexts self) <-> In n (map name cs))
    /\ NoDup (OpenshiftMCP.list_contexts self)
    /\ List.length (OpenshiftMCP.list_contexts self) < List.length cs.
Proof.
  intros cs Hdup self.
  assert (Hkeys : OpenshiftMCP.list_contexts self
                  = first_occurrences (map name cs)).
  { unfold self, OpenshiftMCP.list_contexts. simpl. apply keys_comprehension. }
  split; [reflexivity|]. split; [|split; [exact Hkeys|split; [|split]]].
  - intros l1 p l2 -> Hl2. unfold self. simpl.
    rewrite get_comprehension. apply last_named_last. exact Hl2.
  - intros n. rewrite Hkeys. apply in_first_occurrences.
  - apply NoDup_keys_comprehension.
  - unfold self, OpenshiftMCP.list_contexts. simpl.
    rewrite <- (length_map name cs).
    destruct (Nat.lt_ge_cases
                (List.length (PyDict.keys (PyDict.comprehension name cs)))
                (List.length (map name cs))) as [Hlt|Hge]; [exact Hlt|].
    exfalso. apply Hdup.
    apply (@NoDup_incl_NoDup _ (PyDict.keys (PyDict.comprehension name cs))).
    + apply NoDup_keys_comprehension.
    + exact Hge.
    + intros n Hn. rewrite keys_comprehension in Hn.
      apply in_first_occurrences. exact Hn.
Qed.

Lemma C10_duplicate_names_witness :
  PyDict.get "a" (OpenshiftMCP.contexts
                    (OpenshiftMCP.__init__ [cluster_a; cluster_b; cluster_a']))
  = Some cluster_a'
  /\ OpenshiftMCP.list_contexts
       (OpenshiftMCP.__init__ [cluster_a; cluster_b; cluster_a']) = ["a"; "b"]
  /\ List.length (OpenshiftMCP.list_contexts
               (OpenshiftMCP.__init__ [cluster_a; cluster_b; cluster_a'])) < 3.
Proof.
  assert (Hdup : ~ NoDup (map name [cluster_a; cluster_b; cluster_a'])).
  { intros H. inversion H as [|x l Hnotin _]. apply Hnotin.
    simpl. right. left. reflexivity. }
  destruct (C10_duplicate_names [cluster_a; cluster_b; cluster_a'] Hdup)
    as [_ [Hlast [Hkeys [_ [_ Hlen]]]]].
  split; [|split; [exact Hkeys | exact Hlen]].
  apply (Hlast [cluster_a; cluster_b] cluster_a' []); [reflexivity|].
  intros q [].
Defined.



(** C5 (as stated) fails: the constructor accepts an empty list and
    returns a registry with no profile and no current context. *)
Lemma C5_constructor_accepts_empty :
  OpenshiftMCP.new []
  = Ok {| OpenshiftMCP.contexts := PyDict.empty;
          OpenshiftMCP.current_context := None |}.
Proof. reflexivity. Qed.

Lemma collect_nil (clusters : list config.ClusterConfig) :
  (forall c, In c clusters -> chatbot.usable c = false) ->
  chatbot.collect clusters = [].
Proof.
  induction clusters as [|c rest IH]; intros H; simpl; [reflexivity|].
  rewrite (H c (or_introl eq_refl)). apply IH.
  intros c' Hc'. apply H. right. exact Hc'.
Qed.

(** C5 (as amended): the check for an empty profile list is made by
    [initialize_openshift], not by the constructor.  When no configured
    cluster has a URL, a token and a namespace, it raises [ValueError]
    without constructing a registry, and [main] ends before its command
    loop: with that [ValueError], or earlier with the exception of the
    client's constructor. *)
Theorem C5_startup_rejects_empty :
  forall (clusters : list config.ClusterConfig),
    (forall c, In c clusters -> chatbot.usable c = false) ->
    chatbot.initialize_openshift clusters
    = Raise (ValueError "No valid cluster configurations found in .env file")
    /\ forall (Client : Type) (OpenAI : option string -> result Client)
              (key : option string),
         chatbot.main_startup OpenAI (Config.mk key clusters)
         = chatbot.Fatal
             match OpenAI key with
             | Raise e => e
             | Ok _ =>
                 ValueError "No valid cluster configurations found in .env file"
             end.
Proof.
  intros clusters H. split.
  - unfold chatbot.initialize_openshift.
    rewrite (collect_nil clusters H). reflexivity.
  - intros Client OpenAI key. unfold chatbot.main_startup.
    cbn [Config.openai_api_key Config.clusters].
    unfold chatbot.initialize_openshift. rewrite (collect_nil clusters H).
    destruct (OpenAI key); reflexivity.
Qed.

Lemma C5_startup_rejects_empty_witness :
  chatbot.initialize_openshift [blank_default]
  = Raise (ValueError "No valid cluster configurations found in .env file")
  /\ chatbot.main_startup sample_OpenAI (Config.mk (Some "sk-sample") [])
     = chatbot.Fatal
         (ValueError "No valid cluster configurations found in .env file").
Proof.
  split.
  - apply (C5_startup_rejects_empty [blank_default]).
    intros c [<-|[]]. reflexivity.
  - apply (proj2 (C5_startup_rejects_empty [] (fun c (H : In c []) =>
                                                 match H with end))
             unit sample_OpenAI (Some "sk-sample")).
Defined.

(** ** The fetch operations *)

Lemma append_assoc (a b c : string) : (a ++ b) ++ c = a ++ b ++ c.
Proof.
  induction a as [|ch a IH]; simpl; [reflexivity|]. rewrite IH. reflexivity.
Qed.

Section Fetch.
Import OpenshiftMCP.

Variables (self : t) (ctx : OpenshiftContext).
Hypothesis Hctx : PyDict.getitem (current_context self) (contexts self) = Ok ctx.

(** With an active profile, a fetch sends exactly the documented
    request and hands the answer to [_handle_response]. *)
Lemma fetch_run (k : ResourceKind) (net : Upstream) :
  run (fetch k self) net
  = (match net (request_for k ctx) with
     | inl f => Raise (RequestException f (request_for k ctx))
     | inr resp => _handle_response resp
     end,
     [request_for k ctx]).
Proof.
  assert (Hreq : forall seg,
    mkRequest ((api_url ctx ++ "/api/v1/namespaces/" ++ namespace ctx) ++ seg)
              [("Authorization", "Bearer " ++ token ctx)] (verify_ssl ctx)
    = mkRequest (api_url ctx ++ "/api/v1/namespaces/" ++ namespace ctx ++ seg)
                [("Authorization", "Bearer " ++ token ctx)] (verify_ssl ctx)).
  { intros seg. rewrite !append_assoc. reflexivity. }
  destruct k; unfold run, fetch, get_pods, get_services, get_deployments,
    get_resource_quotas, get_config_maps, bind, lift, requests_get,
    _get_base_url, _get_headers, request_for, api_path, path_segment;
    rewrite Hctx; cbn [app]; rewrite ?Hreq; cbn [append];
    match goal with |- context [net ?r] => destruct (net r) end; reflexivity.
Qed.

Lemma occurs_namespace (k : ResourceKind) :
  occurs_in (namespace ctx) (api_path k ctx).
Proof.
  destruct k; unfold api_path;
    match goal with
    | |- occurs_in _ (?a ++ ?b ++ _ ++ ?c) => exists (a ++ b), c
    end; rewrite append_assoc; reflexivity.
Qed.

Lemma occurs_segment (k : ResourceKind) :
  occurs_in (path_segment k) (api_path k ctx).
Proof.
  destruct k; unfold api_path;
    match goal with
    | |- occurs_in ?s (?a ++ ?b ++ ?c ++ ?d ++ ?s) =>
        exists (a ++ b ++ c ++ d), ""
    end; rewrite !append_assoc;
    repeat (f_equal; try reflexivity).
Qed.

End Fetch.

(** ** Properties of the fetch operations *)

(** C7: with an active profile, each of the five fetch operations sends
    one request whose URL contains the profile's namespace and the
    kind's path segment: deployments go to
    [{api_url}/apis/apps/v1/namespaces/{namespace}/deployments], the four
    other kinds to [{api_url}/api/v1/namespaces/{namespace}/{kind}]. *)
Theorem C7_fetch_urls :
  forall (k : ResourceKind) (self : OpenshiftMCP.t) (ctx : OpenshiftContext)
         (net : Upstream),
    PyDict.getitem (OpenshiftMCP.current_context self)
                   (OpenshiftMCP.contexts self) = Ok ctx ->
    exists req,
      snd (run (OpenshiftMCP.fetch k self) net) = [req]
      /\ occurs_in (namespace ctx) (url req)
      /\ occurs_in (path_segment k) (url req)
      /\ url req
         = match k with
           | Deployments =>
               api_url ctx ++ "/apis/apps/v1/namespaces/" ++ namespace ctx
               ++ "/deployments"
           | Pods =>
               api_url ctx ++ "/api/v1/namespaces/" ++ namespace ctx ++ "/pods"
           | Services =>
               api_url ctx ++ "/api/v1/namespaces/" ++ namespace ctx
               ++ "/services"
           | ResourceQuotas =>
               api_url ctx ++ "/api/v1/namespaces/" ++ namespace ctx
               ++ "/resourcequotas"
           | ConfigMaps =>
               api_url ctx ++ "/api/v1/namespaces/" ++ namespace ctx
               ++ "/configmaps"
           end.
Proof.
  intros k self ctx net Hctx. exists (request_for k ctx).
  rewrite (fetch_run self ctx Hctx). split; [reflexivity|].
  split; [apply occurs_namespace|]. split; [apply occurs_segment|].
  destruct k; reflexivity.
Qed.

Lemma C7_fetch_urls_witness :
  exists req,
    snd (run (OpenshiftMCP.fetch Deployments
                (OpenshiftMCP.__init__ [cluster_a; cluster_b])) upstream_ok)
    = [req]
    /\ occurs_in "dev" (url req)
    /\ occurs_in "deployments" (url req)
    /\ url req = "https://a.example:6443/apis/apps/v1/namespaces/dev/deployments".
Proof.
  apply (C7_fetch_urls Deployments
           (OpenshiftMCP.__init__ [cluster_a; cluster_b]) cluster_a upstream_ok).
  reflexivity.
Defined.

(** C8: with an active profile, when the upstream answers a fetch with
    status 200, the operation returns what the response's [json()]
    gives, as it is: the payload is neither transformed, filtered nor
    validated. *)
Theorem C8_status_200_passthrough :
  forall (k : ResourceKind) (self : OpenshiftMCP.t) (ctx : OpenshiftContext)
         (net : Upstream) (resp : Response),
    PyDict.getitem (OpenshiftMCP.current_context self)
                   (OpenshiftMCP.contexts self) = Ok ctx ->
    net (request_for k ctx) = inr resp ->
    status_code resp = 200%Z ->
    fst (run (OpenshiftMCP.fetch k self) net) = json resp.
Proof.
  intros k self ctx net resp Hctx Hnet H200.
  rewrite (fetch_run self ctx Hctx), Hnet. simpl.
  unfold OpenshiftMCP._handle_response. rewrite H200. reflexivity.
Qed.

Lemma C8_status_200_passthrough_witness :
  fst (run (OpenshiftMCP.fetch Pods (OpenshiftMCP.__init__ [cluster_a; cluster_b]))
           upstream_ok)
  = Ok (JObject [("items", JArray [])]).
Proof.
  apply (C8_status_200_passthrough Pods
           (OpenshiftMCP.__init__ [cluster_a; cluster_b]) cluster_a
           upstream_ok empty_items); reflexivity.
Defined.

(** C4 (as amended): with an active profile, a fetch sends exactly one
    request, so nothing is retried.  When the answer has a status other
    than 200, the operation raises a plain [Exception] whose message is
    [API Error: {status} - {body text}] and returns no data; the message
    holds the status and the body text, but neither the resource kind
    nor the host.  When the transport fails, the exception of the
    transport library leaves the operation as it is. *)
Theorem C4_fetch_failure :
  forall (k : ResourceKind) (self : OpenshiftMCP.t) (ctx : OpenshiftContext)
         (net : Upstream),
    PyDict.getitem (OpenshiftMCP.current_context self)
                   (OpenshiftMCP.contexts self) = Ok ctx ->
    (forall resp,
        net (request_for k ctx) = inr resp ->
        status_code resp <> 200%Z ->
        run (OpenshiftMCP.fetch k self) net
        = (Raise (Exception ("API Error: " ++ str_int (status_code resp)
                             ++ " - " ++ text resp)),
           [request_for k ctx]))
    /\ (forall f,
           net (request_for k ctx) = inl f ->
           run (OpenshiftMCP.fetch k self) net
           = (Raise (RequestException f (request_for k ctx)),
              [request_for k ctx])).
Proof.
  intros k self ctx net Hctx. rewrite (fetch_run self ctx Hctx). split.
  - intros resp -> Hne. unfold OpenshiftMCP._handle_response.
    destruct (Z.eqb_spec (status_code resp) 200) as [He|_];
      [contradiction | reflexivity].
  - intros f ->. reflexivity.
Qed.

Lemma C4_fetch_failure_witness :
  run (OpenshiftMCP.fetch Pods (OpenshiftMCP.__init__ [cluster_a])) upstream_403
  = (Raise (Exception "API Error: 403 - Forbidden"),
     [request_for Pods cluster_a])
  /\ run (OpenshiftMCP.fetch Pods (OpenshiftMCP.__init__ [cluster_a])) upstream_down
     = (Raise (RequestException ConnectionRefused (request_for Pods cluster_a)),
        [request_for Pods cluster_a]).
Proof.
  split.
  - apply (proj1 (C4_fetch_failure Pods (OpenshiftMCP.__init__ [cluster_a])
                    cluster_a upstream_403 eq_refl) forbidden);
      [reflexivity | discriminate].
  - apply (proj2 (C4_fetch_failure Pods (OpenshiftMCP.__init__ [cluster_a])
                    cluster_a upstream_down eq_refl) ConnectionRefused).
    reflexivity.
Defined.

(** C4 (as stated) fails: on a 403 answer, fetching pods from one
    cluster and services from another raise the very same exception, so
    the error carries neither the resource kind nor the host. *)
Lemma C4_error_omits_kind_and_host :
  fst (run (OpenshiftMCP.fetch Pods (OpenshiftMCP.__init__ [cluster_a]))
           upstream_403)
  = Raise (Exception "API Error: 403 - Forbidden")
  /\ fst (run (OpenshiftMCP.fetch Services (OpenshiftMCP.__init__ [cluster_b]))
              upstream_403)
     = Raise (Exception "API Error: 403 - Forbidden")
  /\ ~ (exists kind_of : exn -> ResourceKind,
          forall k e,
            fst (run (OpenshiftMCP.fetch k (OpenshiftMCP.__init__ [cluster_a]))
                     upstream_403) = Raise e ->
            kind_of e = k).
Proof.
  split; [reflexivity|]. split; [reflexivity|].
  intros [kind_of H].
  pose proof (H Pods _ eq_refl) as Hp.
  pose proof (H Services _ eq_refl) as Hs.
  simpl in Hp, Hs. congruence.
Qed.

(** ** Further properties of the registry and of the fetch operations *)

Section MoreRegistry.
Import OpenshiftMCP.

Lemma perform_all_empty_contexts (calls : list call) :
  contexts (perform_all calls (__init__ [])) = []
  /\ current_context (perform_all calls (__init__ [])) = None.
Proof.
  split.
  - rewrite perform_all_contexts. reflexivity.
  - apply perform_all_empty; reflexivity.
Qed.

(** The active profile of a registry built from a non-empty list. *)
Lemma reachable_active_profile (c : OpenshiftContext) (cs : list OpenshiftContext)
      (calls : list call) :
  exists ctx,
    PyDict.getitem (current_context (perform_all calls (__init__ (c :: cs))))
                   (contexts (perform_all calls (__init__ (c :: cs)))) = Ok ctx
    /\ current_context (perform_all calls (__init__ (c :: cs))) = Some (name ctx).
Proof.
  destruct (reachable_current_is_key c cs calls) as [n [Hn Hin]].
  apply contains_keys, contains_get in Hin. destruct Hin as [p Hp].
  exists p. rewrite Hn. simpl. rewrite Hp. split; [reflexivity|].
  rewrite perform_all_contexts in Hp.
  rewrite (init_get_name (c :: cs) n p Hp). reflexivity.
Qed.

Lemma switch_context_registered (self : t) (n : string) (ctx : OpenshiftContext) :
  PyDict.get n (contexts self) = Some ctx ->
  switch_context self n
  = (true, {| contexts := contexts self; current_context := Some n |}).
Proof.
  intros H. unfold switch_context.
  assert (Hc : PyDict.contains n (contexts self) = true)
    by (apply contains_get; eauto).
  rewrite Hc. reflexivity.
Qed.

Lemma collect_filter (clusters : list config.ClusterConfig) :
  chatbot.collect clusters
  = map (fun c => {| api_url := config.url c;
                     token := config.token c;
                     namespace := config.namespace c;
                     name := config.name c;
                     verify_ssl := false |})
        (filter chatbot.usable clusters).
Proof.
  induction clusters as [|c rest IH]; simpl; [reflexivity|].
  destruct (chatbot.usable c); simpl; rewrite IH; reflexivity.
Qed.

Lemma collect_verify_ssl (clusters : list config.ClusterConfig) (ctx : OpenshiftContext) :
  In ctx (chatbot.collect clusters) -> verify_ssl ctx = false.
Proof.
  rewrite collect_filter, in_map_iff. intros [c [<- _]]. reflexivity.
Qed.

Lemma get_comprehension_In (cs : list OpenshiftContext) (n : string)
      (p : OpenshiftContext) :
  PyDict.get n (PyDict.comprehension name cs) = Some p -> In p cs.
Proof.
  rewrite get_comprehension. intros H. apply find_some in H.
  apply in_rev. exact (proj1 H).
Qed.

Lemma last_named_first (c : OpenshiftContext) (cs : list OpenshiftContext) :
  exists p, last_named (name c) (c :: cs) = Some p.
Proof.
  unfold last_named. simpl rev. rewrite find_append.
  destruct (find _ (rev cs)) as [q|]; [eauto|].
  simpl. rewrite String.eqb_refl. eauto.
Qed.

End MoreRegistry.

(** X1: on a registry built from an empty profile list, each of the five
    fetch operations raises [KeyError(None)] before any request is sent,
    whatever calls were made before and whatever the upstream is. *)
Theorem X1_fetch_on_empty_registry :
  forall (k : ResourceKind) (calls : list call) (net : Upstream),
    run (OpenshiftMCP.fetch k (perform_all calls (OpenshiftMCP.__init__ []))) net
    = (Raise (KeyError None), []).
Proof.
  intros k calls net.
  destruct (perform_all_empty_contexts calls) as [Hc Hn].
  destruct k; unfold run, OpenshiftMCP.fetch, OpenshiftMCP.get_pods,
    OpenshiftMCP.get_services, OpenshiftMCP.get_deployments,
    OpenshiftMCP.get_resource_quotas, OpenshiftMCP.get_config_maps, bind, lift;
    rewrite Hn; reflexivity.
Qed.

(** X2: on a registry built from a non-empty profile list, after any
    calls, a fetch finds its active profile and sends exactly one request,
    whose only header is [Authorization: Bearer] followed by that
    profile's token and whose [verify] flag is the profile's [verify_ssl];
    the outcome is the transport's exception or what [_handle_response]
    makes of the answer. *)
Theorem X2_fetch_sends_one_authenticated_request :
  forall (c : OpenshiftContext) (cs : list OpenshiftContext)
         (calls : list call) (k : ResourceKind) (net : Upstream),
    let self := perform_all calls (OpenshiftMCP.__init__ (c :: cs)) in
    exists ctx req,
      OpenshiftMCP.current_context self = Some (name ctx)
      /\ PyDict.get (name ctx) (OpenshiftMCP.contexts self) = Some ctx
      /\ snd (run (OpenshiftMCP.fetch k self) net) = [req]
      /\ headers req = [("Authorization", "Bearer " ++ token ctx)]
      /\ verify req = verify_ssl ctx
      /\ fst (run (OpenshiftMCP.fetch k self) net)
         = match net req with
           | inl f => Raise (RequestException f req)
           | inr resp => OpenshiftMCP._handle_response resp
           end.
Proof.
  intros c cs calls k net self.
  destruct (reachable_active_profile c cs calls) as [ctx [Hctx Hcur]].
  fold self in Hctx, Hcur.
  exists ctx, (request_for k ctx). split; [exact Hcur|]. split.
  - rewrite Hcur in Hctx. simpl in Hctx.
    destruct (PyDict.get (name ctx) (OpenshiftMCP.contexts self)) as [p|];
      [injection Hctx as ->; reflexivity | discriminate].
  - rewrite (fetch_run self ctx Hctx). repeat split; reflexivity.
Qed.

(** X3: a switch that completes is seen by the next fetch: after
    [switch_context(n)] for a registered name [n], every fetch sends its
    one request to the profile stored under [n]. *)
Theorem X3_switch_then_fetch :
  forall (self : OpenshiftMCP.t) (n : string) (ctx : OpenshiftContext)
         (k : ResourceKind) (net : Upstream),
    PyDict.get n (OpenshiftMCP.contexts self) = Some ctx ->
    fst (OpenshiftMCP.switch_context self n) = true
    /\ snd (run (OpenshiftMCP.fetch k (snd (OpenshiftMCP.switch_context self n)))
                net)
       = [request_for k ctx].
Proof.
  intros self n ctx k net H.
  rewrite (switch_context_registered self n ctx H). split; [reflexivity|].
  simpl snd at 2. rewrite (fetch_run _ ctx); [reflexivity|].
  simpl. rewrite H. reflexivity.
Qed.

Lemma X3_switch_then_fetch_witness :
  fst (OpenshiftMCP.switch_context
         (OpenshiftMCP.__init__ [cluster_a; cluster_b]) "b") = true
  /\ snd (run (OpenshiftMCP.fetch Pods
                 (snd (OpenshiftMCP.switch_context
                         (OpenshiftMCP.__init__ [cluster_a; cluster_b]) "b")))
              upstream_ok)
     = [request_for Pods cluster_b].
Proof.
  apply (X3_switch_then_fetch (OpenshiftMCP.__init__ [cluster_a; cluster_b])
           "b" cluster_b Pods upstream_ok).
  reflexivity.
Defined.

(** X4: right after construction from a non-empty list, requests go to
    the last profile of the list that bears the first profile's name;
    that is [profiles[0]] itself when no later profile reuses its name. *)
Theorem X4_init_active_profile :
  forall (c : OpenshiftContext) (cs : list OpenshiftContext)
         (k : ResourceKind) (net : Upstream),
    exists p,
      last_named (name c) (c :: cs) = Some p
      /\ snd (run (OpenshiftMCP.fetch k (OpenshiftMCP.__init__ (c :: cs))) net)
         = [request_for k p]
      /\ ((forall q, In q cs -> name q <> name c) -> p = c).
Proof.
  intros c cs k net.
  destruct (last_named_first c cs) as [p Hp].
  assert (Hget : PyDict.get (name c)
                   (OpenshiftMCP.contexts (OpenshiftMCP.__init__ (c :: cs)))
                 = Some p).
  { simpl OpenshiftMCP.contexts. rewrite get_comprehension. exact Hp. }
  exists p. split; [exact Hp|]. split.
  - rewrite (fetch_run _ p); [reflexivity|].
    simpl OpenshiftMCP.current_context. unfold PyDict.getitem.
    rewrite Hget. reflexivity.
  - intros Hcs.
    pose proof (last_named_last [] cs c Hcs) as Hl. simpl app in Hl.
    congruence.
Qed.

(** X5: the last successful switch wins: switching to a registered name
    [m] right after any other switch attempt, successful or not, returns
    [True] and leaves the instance exactly as a direct switch to [m]
    would; in particular a repeated switch changes nothing more. *)
Theorem X5_switch_last_wins :
  forall (self : OpenshiftMCP.t) (n m : string),
    In m (OpenshiftMCP.list_contexts self) ->
    OpenshiftMCP.switch_context (snd (OpenshiftMCP.switch_context self n)) m
    = OpenshiftMCP.switch_context self m
    /\ OpenshiftMCP.switch_context (snd (OpenshiftMCP.switch_context self m)) m
       = OpenshiftMCP.switch_context self m
    /\ fst (OpenshiftMCP.switch_context self m) = true.
Proof.
  intros self n m Hm. apply contains_keys in Hm.
  unfold OpenshiftMCP.switch_context.
  destruct (PyDict.contains n (OpenshiftMCP.contexts self));
    simpl; rewrite Hm; simpl; rewrite ?Hm; repeat split; reflexivity.
Qed.

Lemma X5_switch_last_wins_witness :
  OpenshiftMCP.switch_context
    (snd (OpenshiftMCP.switch_context
            (OpenshiftMCP.__init__ [cluster_a; cluster_b]) "nowhere")) "b"
  = OpenshiftMCP.switch_context (OpenshiftMCP.__init__ [cluster_a; cluster_b]) "b".
Proof.
  apply (X5_switch_last_wins (OpenshiftMCP.__init__ [cluster_a; cluster_b])
           "nowhere" "b").
  simpl. right. left. reflexivity.
Defined.

Lemma initialize_openshift_ok (clusters : list config.ClusterConfig)
      (self : OpenshiftMCP.t) :
  chatbot.initialize_openshift clusters = Ok self ->
  exists c cs, chatbot.collect clusters = c :: cs
               /\ self = OpenshiftMCP.__init__ (c :: cs).
Proof.
  unfold chatbot.initialize_openshift, OpenshiftMCP.new.
  destruct (chatbot.collect clusters) as [|c cs]; [discriminate|].
  intros H. injection H as <-. eauto.
Qed.

(** X6: a registry that [initialize_openshift] returns holds only
    profiles with certificate verification off: [__init__] silences the
    TLS warnings, and every request of every later fetch is sent with
    [verify=False]. *)
Theorem X6_startup_never_verifies_tls :
  forall (clusters : list config.ClusterConfig) (self : OpenshiftMCP.t)
         (calls : list call) (k : ResourceKind) (net : Upstream) (req : Request),
    chatbot.initialize_openshift clusters = Ok self ->
    In req (snd (run (OpenshiftMCP.fetch k (perform_all calls self)) net)) ->
    verify req = false
    /\ OpenshiftMCP.init_disables_warnings (chatbot.collect clusters) = true.
Proof.
  intros clusters self calls k net req Hinit Hreq.
  destruct (initialize_openshift_ok clusters self Hinit) as [c [cs [Hcol ->]]].
  destruct (reachable_active_profile c cs calls) as [ctx [Hctx Hcur]].
  assert (Hin : In ctx (chatbot.collect clusters)).
  { rewrite Hcol. rewrite Hcur in Hctx. simpl in Hctx.
    rewrite perform_all_contexts in Hctx.
    destruct (PyDict.get (name ctx)
                (OpenshiftMCP.contexts (OpenshiftMCP.__init__ (c :: cs))))
      as [p|] eqn:Hp; [|discriminate].
    injection Hctx as ->. apply (get_comprehension_In _ _ _ Hp). }
  split.
  - rewrite (fetch_run _ ctx Hctx) in Hreq. simpl in Hreq.
    destruct Hreq as [<-|[]]. simpl.
    apply (collect_verify_ssl clusters). exact Hin.
  - unfold OpenshiftMCP.init_disables_warnings. apply existsb_exists.
    exists ctx. split; [exact Hin|].
    rewrite (collect_verify_ssl clusters ctx Hin). reflexivity.
Qed.

Lemma X6_startup_never_verifies_tls_witness :
  verify (request_for Services
            {| api_url := "https://b.example:6443"; token := "token-b";
               namespace := "prod"; name := "b"; verify_ssl := false |}) = false
  /\ OpenshiftMCP.init_disables_warnings
       (chatbot.collect [blank_default; config_a; config_b]) = true.
Proof.
  apply (X6_startup_never_verifies_tls [blank_default; config_a; config_b]
           (OpenshiftMCP.__init__ (chatbot.collect [config_a; config_b]))
           [CallSwitch "b"] Services upstream_ok).
  - reflexivity.
  - simpl. left. reflexivity.
Defined.

Lemma find_filter {A} (f : A -> bool) (l : list A) :
  find f l = hd_error (filter f l).
Proof.
  induction l as [|a l IH]; simpl; [reflexivity|].
  destruct (f a); [reflexivity | exact IH].
Qed.

(** X7: when at least one configured cluster has a URL, a token and a
    namespace, [initialize_openshift] succeeds; the current context is
    the name of the first such cluster, and the registered names are
    exactly the names of such clusters: an incomplete entry is never
    registered.  [main] then enters its loop on that registry when the
    client's constructor returns, and ends with the constructor's
    exception, before [initialize_openshift] is called, when it raises. *)
Theorem X7_startup_registers_usable_clusters :
  forall (clusters : list config.ClusterConfig),
    (exists c, In c clusters /\ chatbot.usable c = true) ->
    exists self first,
      chatbot.initialize_openshift clusters = Ok self
      /\ (forall (Client : Type) (OpenAI : option string -> result Client)
                 (key : option string),
            chatbot.main_startup OpenAI (Config.mk key clusters)
            = match OpenAI key with
              | Ok _ => chatbot.EnterLoop self
              | Raise e => chatbot.Fatal e
              end)
      /\ find chatbot.usable clusters = Some first
      /\ OpenshiftMCP.get_current_context self = Some (config.name first)
      /\ (forall n, In n (OpenshiftMCP.list_contexts self)
                    <-> exists c, In c clusters /\ chatbot.usable c = true
                                  /\ config.name c = n).
Proof.
  intros clusters [c0 [Hin0 Hus0]].
  assert (Hf : In c0 (filter chatbot.usable clusters))
    by (apply filter_In; split; assumption).
  destruct (filter chatbot.usable clusters) as [|first rest] eqn:Hfil;
    [destruct Hf|].
  exists (OpenshiftMCP.__init__ (chatbot.collect clusters)), first.
  assert (Hcol := collect_filter clusters). rewrite Hfil in Hcol. simpl in Hcol.
  assert (Hinit : chatbot.initialize_openshift clusters
                  = Ok (OpenshiftMCP.__init__ (chatbot.collect clusters))).
  { unfold chatbot.initialize_openshift. rewrite Hcol. reflexivity. }
  split; [exact Hinit|]. split.
  - intros Client OpenAI key. unfold chatbot.main_startup.
    cbn [Config.openai_api_key Config.clusters]. rewrite Hinit.
    destruct (OpenAI key); reflexivity.
  - split; [rewrite find_filter, Hfil; reflexivity|]. split.
    + rewrite Hcol. reflexivity.
    + intros n. unfold OpenshiftMCP.list_contexts. simpl OpenshiftMCP.contexts.
      rewrite keys_comprehension, in_first_occurrences.
      rewrite collect_filter, map_map, in_map_iff. simpl.
      split.
      * intros [c [Hn Hc]]. apply filter_In in Hc. exists c. tauto.
      * intros [c [Hc [Hus Hn]]]. exists c. split; [exact Hn|].
        apply filter_In. split; assumption.
Qed.

Lemma X7_startup_registers_usable_clusters_witness :
  exists self first,
    chatbot.initialize_openshift [blank_default; config_a; config_b] = Ok self
    /\ (forall (Client : Type) (OpenAI : option string -> result Client)
               (key : option string),
          chatbot.main_startup OpenAI
            (Config.mk key [blank_default; config_a; config_b])
          = match OpenAI key with
            | Ok _ => chatbot.EnterLoop self
            | Raise e => chatbot.Fatal e
            end)
    /\ find chatbot.usable [blank_default; config_a; config_b] = Some first
    /\ OpenshiftMCP.get_current_context self = Some (config.name first)
    /\ (forall n, In n (OpenshiftMCP.list_contexts self)
                  <-> exists c, In c [blank_default; config_a; config_b]
                                /\ chatbot.usable c = true
                                /\ config.name c = n).
Proof.
  apply (X7_startup_registers_usable_clusters [blank_default; config_a; config_b]).
  exists config_a. split; [simpl; right; left; reflexivity | reflexivity].
Defined.

(** ** Loading the cluster configuration *)

Lemma first_occurrences_NoDup (l : list string) :
  NoDup l -> first_occurrences l = l.
Proof.
  induction l as [|a l IH]; intros H; simpl; [reflexivity|].
  inversion H as [|x l' Hnotin Hl]; subst.
  rewrite (IH Hl). f_equal.
  apply forallb_filter_id. apply forallb_forall.
  intros m Hm. destruct (String.eqb_spec a m) as [->|_];
    [contradiction | reflexivity].
Qed.

Section NamesFacts.

Let names_step (env : PyDict.t string) :=
  fun names key =>
    if startswith key "CLUSTER_" && endswith key "_NAME"
    then match PyDict.get key env with
         | Some cluster_name =>
             if negb (String.eqb cluster_name
                                 (config.name (Config.default_cluster env)))
             then Config.set_add cluster_name names
             else names
         | None => names
         end
    else names.

Lemma set_add_In (x y : string) (s : list string) :
  In y (Config.set_add x s) <-> y = x \/ In y s.
Proof.
  unfold Config.set_add.
  destruct (existsb (String.eqb x) s) eqn:He.
  - apply existsb_exists in He. destruct He as [z [Hz Hxz]].
    apply String.eqb_eq in Hxz. subst z.
    split; [tauto | intros [->|H]; assumption].
  - rewrite in_app_iff. simpl. split; [intros [H|[H|[]]]; auto | intros [->|H]; auto].
Qed.

Lemma set_add_NoDup (x : string) (s : list string) :
  NoDup s -> NoDup (Config.set_add x s).
Proof.
  intros Hs. unfold Config.set_add.
  destruct (existsb (String.eqb x) s) eqn:He; [exact Hs|].
  apply NoDup_rev in Hs. rewrite <- (rev_involutive (s ++ [x])%list).
  apply NoDup_rev. rewrite rev_app_distr. simpl. constructor; [|exact Hs].
  rewrite <- in_rev. intros Hin.
  assert (existsb (String.eqb x) s = true); [|congruence].
  apply existsb_exists. exists x. split; [exact Hin | apply String.eqb_refl].
Qed.

Lemma names_fold_NoDup (env : PyDict.t string) (ks : list string) :
  forall acc, NoDup acc -> NoDup (fold_left (names_step env) ks acc).
Proof.
  induction ks as [|k ks IH]; intros acc Hacc; simpl; [exact Hacc|].
  apply IH. unfold names_step.
  destruct (startswith k "CLUSTER_" && endswith k "_NAME"); [|exact Hacc].
  destruct (PyDict.get k env) as [v|]; [|exact Hacc].
  destruct (negb _); [apply set_add_NoDup|]; exact Hacc.
Qed.

Lemma names_step_In (env : PyDict.t string) (acc : list string) (k n : string) :
  In n (names_step env acc k)
  <-> In n acc
      \/ (n <> config.name (Config.default_cluster env)
          /\ startswith k "CLUSTER_" = true
          /\ endswith k "_NAME" = true
          /\ PyDict.get k env = Some n).
Proof.
  unfold names_step.
  destruct (startswith k "CLUSTER_"), (endswith k "_NAME"); cbn [andb];
    try (split; [auto | intros [H|[_ [H1 [H2 _]]]]; [exact H | discriminate]]).
  destruct (PyDict.get k env) as [v|];
    [|split; [auto | intros [H|[_ [_ [_ H]]]]; [exact H | discriminate]]].
  destruct (String.eqb_spec v (config.name (Config.default_cluster env)))
    as [Hv|Hv]; cbn [negb].
  - split; [auto|]. intros [H|[Hn [_ [_ H]]]]; [exact H | congruence].
  - rewrite set_add_In. split.
    + intros [->|H]; [right; auto | left; exact H].
    + intros [H|[_ [_ [_ H]]]]; [right; exact H | left; congruence].
Qed.

Lemma names_fold_In (env : PyDict.t string) (ks : list string) (n : string) :
  forall acc,
    In n (fold_left (names_step env) ks acc)
    <-> In n acc
        \/ (n <> config.name (Config.default_cluster env)
            /\ exists key, In key ks
                           /\ startswith key "CLUSTER_" = true
                           /\ endswith key "_NAME" = true
                           /\ PyDict.get key env = Some n).
Proof.
  induction ks as [|k ks IH]; intros acc; cbn [fold_left].
  - split; [auto | intros [H|[_ [key [[] _]]]]; exact H].
  - rewrite IH, names_step_In. split.
    + intros [[H|[Hn Hk]]|[Hn [key [Hk Hr]]]].
      * left. exact H.
      * right. split; [exact Hn|]. exists k. split; [left; reflexivity | exact Hk].
      * right. split; [exact Hn|]. exists key. split; [right; exact Hk | exact Hr].
    + intros [H|[Hn [key [[<-|Hk] Hr]]]].
      * left. left. exact H.
      * left. right. split; [exact Hn | exact Hr].
      * right. split; [exact Hn|]. exists key. split; [exact Hk | exact Hr].
Qed.

Lemma cluster_names_NoDup (env : PyDict.t string) :
  NoDup (Config.cluster_names env).
Proof. apply (names_fold_NoDup env). constructor. Qed.

Lemma cluster_names_In (env : PyDict.t string) (n : string) :
  In n (Config.cluster_names env) <-> declared env n.
Proof.
  unfold Config.cluster_names. fold (names_step env).
  rewrite names_fold_In. unfold declared. simpl. tauto.
Qed.

End NamesFacts.

Section LoadFacts.
Variable upper : string -> string.

(** What the second loop appends for one name. *)
Lemma load_named_In (env : PyDict.t string) (n : string) (c : config.ClusterConfig) :
  In c (Config.load_named upper env n)
  <-> config.name c = n
      /\ PyDict.get ("CLUSTER_" ++ upper n ++ "_" ++ "URL") env
         = Some (config.url c)
      /\ PyDict.get ("CLUSTER_" ++ upper n ++ "_" ++ "TOKEN") env
         = Some (config.token c)
      /\ PyDict.get ("CLUSTER_" ++ upper n ++ "_" ++ "NAMESPACE") env
         = Some (config.namespace c)
      /\ chatbot.usable c = true.
Proof.
  unfold Config.load_named, chatbot.usable, chatbot.truthy.
  rewrite !append_assoc. cbn [append].
  destruct (PyDict.get _ env) as [u|];
    [|split; [intros [] | intros [_ [H _]]; discriminate]].
  destruct (PyDict.get _ env) as [t|];
    [|split; [intros [] | intros [_ [_ [H _]]]; discriminate]].
  destruct (PyDict.get _ env) as [ns|];
    [|split; [intros [] | intros [_ [_ [_ [H _]]]]; discriminate]].
  destruct (negb (u =? "") && negb (t =? "") && negb (ns =? "")) eqn:Hb.
  - split.
    + intros [<-|[]]. simpl. rewrite Hb. repeat split; reflexivity.
    + intros [Hn [Hu [Ht [Hns _]]]]. left. destruct c; simpl in *. congruence.
  - split; [intros []|].
    intros [_ [Hu [Ht [Hns Hus]]]].
    injection Hu as ->. injection Ht as ->. injection Hns as ->. congruence.
Qed.

Lemma load_named_names (env : PyDict.t string) (l : list string) :
  map config.name (flat_map (Config.load_named upper env) l)
  = filter (fun n => match Config.load_named upper env n with
                     | [] => false
                     | _ => true
                     end) l.
Proof.
  induction l as [|n l IH]; simpl; [reflexivity|].
  rewrite map_app, IH. unfold Config.load_named at 1 3.
  destruct (PyDict.get _ env); [|reflexivity].
  destruct (PyDict.get _ env); [|reflexivity].
  destruct (PyDict.get _ env); [|reflexivity].
  destruct (_ && _); reflexivity.
Qed.

Variable set_iter : list string -> list string.
Hypothesis set_iter_perm : forall l, Permutation (set_iter l) l.

Lemma set_iter_In (l : list string) (n : string) :
  In n (set_iter l) <-> In n l.
Proof.
  split; apply Permutation_in; [|apply Permutation_sym]; apply set_iter_perm.
Qed.

Lemma set_iter_NoDup (l : list string) : NoDup l -> NoDup (set_iter l).
Proof.
  apply Permutation_NoDup. apply Permutation_sym, set_iter_perm.
Qed.

Lemma loaded_names_NoDup (env : PyDict.t string) :
  NoDup (map config.name (Config._load_clusters upper set_iter env)).
Proof.
  unfold Config._load_clusters. simpl map. rewrite load_named_names.
  constructor.
  - intros Hin. apply filter_In in Hin. destruct Hin as [Hin _].
    apply set_iter_In, cluster_names_In in Hin. destruct Hin as [Hne _].
    apply Hne. reflexivity.
  - apply NoDup_filter, set_iter_NoDup, cluster_names_NoDup.
Qed.

Lemma loaded_rest_usable (env : PyDict.t string) (c : config.ClusterConfig) :
  In c (flat_map (Config.load_named upper env) (set_iter (Config.cluster_names env))) ->
  chatbot.usable c = true.
Proof.
  rewrite in_flat_map. intros [n [_ Hc]].
  apply load_named_In in Hc. tauto.
Qed.

End LoadFacts.

Lemma usable_names_NoDup (clusters : list config.ClusterConfig) :
  NoDup (map config.name clusters) ->
  NoDup (map config.name (filter chatbot.usable clusters)).
Proof.
  intros Hnd. induction clusters as [|c rest IH]; [constructor|].
  cbn [map filter] in *. apply NoDup_cons_iff in Hnd. destruct Hnd as [Hc Hrest].
  destruct (chatbot.usable c); [|exact (IH Hrest)].
  cbn [map]. apply NoDup_cons_iff. split; [|exact (IH Hrest)].
  intros Hin. apply Hc. apply in_map_iff in Hin.
  destruct Hin as [c' [Hname Hc']]. apply filter_In in Hc'.
  apply in_map_iff. exists c'. tauto.
Qed.

Lemma collect_names (clusters : list config.ClusterConfig) :
  map name (chatbot.collect clusters)
  = map config.name (filter chatbot.usable clusters).
Proof.
  induction clusters as [|c rest IH]; simpl; [reflexivity|].
  destruct (chatbot.usable c); simpl; rewrite IH; reflexivity.
Qed.

Lemma insertion_order_perm (l : list string) : Permutation (insertion_order l) l.
Proof. apply Permutation_refl. Qed.

(** X8: the clusters that [_load_clusters] returns bear pairwise
    distinct names, in whatever order the set of names is visited; so
    the registry built from them at start-up overwrites no profile: its
    names are those of the complete clusters, in the order loaded. *)
Theorem X8_loaded_names_distinct :
  forall (upper : string -> string) (set_iter : list string -> list string),
    (forall l, Permutation (set_iter l) l) ->
    forall (env : PyDict.t string),
      NoDup (map config.name (Config._load_clusters upper set_iter env))
      /\ forall self,
           chatbot.initialize_openshift
             (Config._load_clusters upper set_iter env) = Ok self ->
           OpenshiftMCP.list_contexts self
           = map config.name
               (filter chatbot.usable (Config._load_clusters upper set_iter env)).
Proof.
  intros upper set_iter Hperm env.
  pose proof (loaded_names_NoDup upper set_iter Hperm env) as Hnd.
  split; [exact Hnd|]. intros self Hinit.
  destruct (initialize_openshift_ok _ _ Hinit) as [c [cs [Hcol ->]]].
  unfold OpenshiftMCP.list_contexts. simpl OpenshiftMCP.contexts.
  rewrite keys_comprehension, <- Hcol, collect_names.
  apply first_occurrences_NoDup. apply usable_names_NoDup. exact Hnd.
Qed.

Lemma X8_loaded_names_distinct_witness :
  NoDup (map config.name
           (Config._load_clusters upper_ascii insertion_order sample_env))
  /\ forall self,
       chatbot.initialize_openshift
         (Config._load_clusters upper_ascii insertion_order sample_env) = Ok self ->
       OpenshiftMCP.list_contexts self
       = map config.name
           (filter chatbot.usable
              (Config._load_clusters upper_ascii insertion_order sample_env)).
Proof.
  apply (X8_loaded_names_distinct upper_ascii insertion_order
           insertion_order_perm sample_env).
Defined.

(** X9: besides the default cluster, [_load_clusters] returns exactly
    the clusters whose name is the value of some variable
    [CLUSTER_..._NAME], differs from the default cluster's name, and for
    which the variables [CLUSTER_{NAME}_URL], [CLUSTER_{NAME}_TOKEN] and
    [CLUSTER_{NAME}_NAMESPACE], spelt with the upper-cased name, all hold
    non-empty values; those values are the cluster's fields. *)
Theorem X9_loaded_clusters_characterised :
  forall (upper : string -> string) (set_iter : list string -> list string),
    (forall l, Permutation (set_iter l) l) ->
    forall (env : PyDict.t string) (c : config.ClusterConfig),
      In c (tl (Config._load_clusters upper set_iter env))
      <-> declared env (config.name c)
          /\ PyDict.get ("CLUSTER_" ++ upper (config.name c) ++ "_URL") env
             = Some (config.url c)
          /\ PyDict.get ("CLUSTER_" ++ upper (config.name c) ++ "_TOKEN") env
             = Some (config.token c)
          /\ PyDict.get ("CLUSTER_" ++ upper (config.name c) ++ "_NAMESPACE") env
             = Some (config.namespace c)
          /\ config.url c <> "" /\ config.token c <> ""
          /\ config.namespace c <> "".
Proof.
  intros upper set_iter Hperm env c.
  unfold Config._load_clusters. cbn [tl]. rewrite in_flat_map.
  assert (Hus : chatbot.usable c = true
                <-> config.url c <> "" /\ config.token c <> ""
                    /\ config.namespace c <> "").
  { unfold chatbot.usable, chatbot.truthy.
    rewrite !andb_true_iff, !negb_true_iff, !String.eqb_neq. tauto. }
  split.
  - intros [n [Hn Hc]].
    apply (set_iter_In set_iter Hperm), cluster_names_In in Hn.
    apply load_named_In in Hc. destruct Hc as [<- [Hu [Ht [Hns Husable]]]].
    apply Hus in Husable.
    split; [exact Hn|]. split; [exact Hu|]. split; [exact Ht|].
    split; [exact Hns | exact Husable].
  - intros [Hd [Hu [Ht [Hns Hne]]]]. exists (config.name c). split.
    + apply (set_iter_In set_iter Hperm), cluster_names_In. exact Hd.
    + apply load_named_In. apply Hus in Hne.
      split; [reflexivity|]. split; [exact Hu|]. split; [exact Ht|].
      split; [exact Hns | exact Hne].
Qed.

Lemma X9_loaded_clusters_characterised_witness :
  In (config.mkClusterConfig "prod" "https://b.example:6443" "token-b" "live")
     (tl (Config._load_clusters upper_ascii insertion_order sample_env))
  /\ ~ In (config.mkClusterConfig "qa" "https://c.example:6443" "token-c" "test")
          (tl (Config._load_clusters upper_ascii insertion_order sample_env)).
Proof.
  split.
  - apply (X9_loaded_clusters_characterised upper_ascii insertion_order
             insertion_order_perm sample_env).
    split; [|repeat split; try reflexivity; discriminate].
    split; [discriminate|]. exists "CLUSTER_1_NAME".
    split; [simpl; tauto | repeat split; reflexivity].
  - intros H.
    apply (X9_loaded_clusters_characterised upper_ascii insertion_order
             insertion_order_perm sample_env) in H.
    destruct H as [_ [H _]]. discriminate H.
Defined.

(** X10: when the variables [DEFAULT_CLUSTER_URL], [..._TOKEN] and
    [..._NAMESPACE] all hold non-empty values, [initialize_openshift]
    succeeds on the loaded configuration whatever else the environment
    declares, and its registry is on the default cluster: the current
    context is the value of [DEFAULT_CLUSTER_NAME], or [default] when
    that variable is not set.  [main] enters its loop on that registry
    when the client's constructor accepts what [OPENAI_API_KEY] holds,
    and ends with the constructor's exception when it raises. *)
Theorem X10_startup_on_default_cluster :
  forall (upper : string -> string) (set_iter : list string -> list string)
         (env : PyDict.t string),
    chatbot.usable (Config.default_cluster env) = true ->
    exists self,
      chatbot.initialize_openshift (Config._load_clusters upper set_iter env)
      = Ok self
      /\ OpenshiftMCP.get_current_context self
         = Some (Config.getenv_default env "DEFAULT_CLUSTER_NAME" "default")
      /\ forall (Client : Type) (OpenAI : option string -> result Client),
           chatbot.main_startup OpenAI (Config.__init__ upper set_iter env)
           = match OpenAI (PyDict.get "OPENAI_API_KEY" env) with
             | Ok _ => chatbot.EnterLoop self
             | Raise e => chatbot.Fatal e
             end.
Proof.
  intros upper set_iter env Hus.
  assert (Hinit : exists self,
    chatbot.initialize_openshift (Config._load_clusters upper set_iter env)
    = Ok self
    /\ OpenshiftMCP.get_current_context self
       = Some (Config.getenv_default env "DEFAULT_CLUSTER_NAME" "default")).
  { unfold chatbot.initialize_openshift, Config._load_clusters.
    cbn [chatbot.collect]. rewrite Hus.
    eexists. split; reflexivity. }
  destruct Hinit as [self [Hinit Hcur]].
  exists self. split; [exact Hinit|]. split; [exact Hcur|].
  intros Client OpenAI. unfold chatbot.main_startup, Config.__init__.
  cbn [Config.openai_api_key Config.clusters]. rewrite Hinit.
  destruct (OpenAI _); reflexivity.
Qed.

Lemma X10_startup_on_default_cluster_witness :
  exists self,
    chatbot.initialize_openshift
      (Config._load_clusters upper_ascii insertion_order sample_env_keyed)
    = Ok self
    /\ OpenshiftMCP.get_current_context self = Some "default"
    /\ chatbot.main_startup sample_OpenAI
         (Config.__init__ upper_ascii insertion_order sample_env_keyed)
       = chatbot.EnterLoop self.
Proof.
  destruct (X10_startup_on_default_cluster upper_ascii insertion_order
              sample_env_keyed eq_refl) as [self [Hinit [Hcur Hmain]]].
  exists self. split; [exact Hinit|]. split; [exact Hcur|].
  exact (Hmain unit sample_OpenAI).
Defined.

(** X11: start-up on the loaded configuration fails with [ValueError]
    exactly when the default cluster lacks a URL, a token or a namespace
    and no declared name has its three variables non-empty: every other
    cluster that [_load_clusters] returns passes the completeness test of
    [initialize_openshift]. *)
Theorem X11_startup_failure_characterised :
  forall (upper : string -> string) (set_iter : list string -> list string),
    (forall l, Permutation (set_iter l) l) ->
    forall (env : PyDict.t string),
      (forall c, In c (tl (Config._load_clusters upper set_iter env)) ->
                 chatbot.usable c = true)
      /\ (chatbot.initialize_openshift (Config._load_clusters upper set_iter env)
          = Raise (ValueError
                     "No valid cluster configurations found in .env file")
          <-> chatbot.usable (Config.default_cluster env) = false
              /\ forall n, declared env n -> Config.load_named upper env n = []).
Proof.
  intros upper set_iter Hperm env.
  assert (Hrest : forall c,
             In c (tl (Config._load_clusters upper set_iter env)) ->
             chatbot.usable c = true).
  { intros c Hc. apply (loaded_rest_usable upper set_iter env c). exact Hc. }
  split; [exact Hrest|].
  unfold chatbot.initialize_openshift, OpenshiftMCP.new.
  rewrite collect_filter. unfold Config._load_clusters in *. cbn [tl] in Hrest.
  cbn [filter].
  destruct (chatbot.usable (Config.default_cluster env)) eqn:Hd.
  - cbn [map]. split; [discriminate | intros [H _]; discriminate].
  - rewrite forallb_filter_id by (apply forallb_forall; exact Hrest).
    destruct (flat_map (Config.load_named upper env)
                (set_iter (Config.cluster_names env))) as [|c0 rest] eqn:Hfm.
    + cbn [map]. split; [|reflexivity]. intros _. split; [reflexivity|].
      intros n Hn. apply cluster_names_In, (set_iter_In set_iter Hperm) in Hn.
      destruct (Config.load_named upper env n) as [|c l] eqn:Hl; [reflexivity|].
      assert (Hin : In c (flat_map (Config.load_named upper env)
                            (set_iter (Config.cluster_names env)))).
      { apply in_flat_map. exists n. split; [exact Hn|]. rewrite Hl. left. reflexivity. }
      rewrite Hfm in Hin. destruct Hin.
    + cbn [map]. split; [discriminate|]. intros [_ Hnone].
      assert (Hin : In c0 (flat_map (Config.load_named upper env)
                             (set_iter (Config.cluster_names env))))
        by (rewrite Hfm; left; reflexivity).
      apply in_flat_map in Hin. destruct Hin as [n [Hn Hc0]].
      apply (set_iter_In set_iter Hperm), cluster_names_In in Hn.
      rewrite (Hnone n Hn) in Hc0. destruct Hc0.
Qed.

Lemma X11_startup_failure_characterised_witness :
  (forall c,
      In c (tl (Config._load_clusters upper_ascii insertion_order
                  [("CLUSTER_2_NAME", "qa")])) ->
      chatbot.usable c = true)
  /\ (chatbot.initialize_openshift
        (Config._load_clusters upper_ascii insertion_order
           [("CLUSTER_2_NAME", "qa")])
      = Raise (ValueError "No valid cluster configurations found in .env file")
      <-> chatbot.usable (Config.default_cluster [("CLUSTER_2_NAME", "qa")])
          = false
          /\ forall n, declared [("CLUSTER_2_NAME", "qa")] n ->
                       Config.load_named upper_ascii [("CLUSTER_2_NAME", "qa")] n
                       = []).
Proof.
  apply (X11_startup_failure_characterised upper_ascii insertion_order
           insertion_order_perm [("CLUSTER_2_NAME", "qa")]).
Defined.

(** ** Stripping, splitting and joining *)

Section StripWith.
Variable p1 : ascii -> bool.
Variable p2 : ascii -> ascii -> bool.
Variable p3 : ascii -> ascii -> ascii -> bool.

(** What is left starts with no character that the tests accept, and is
    an end piece of the input. *)
Lemma lstrip_with_suffix (s : list ascii) :
  exists pre, s = (pre ++ lstrip_with p1 p2 p3 s)%list.
Proof.
  remember (List.length s) as n eqn:Hn. revert s Hn.
  induction n as [n IH] using lt_wf_ind. intros s Hn.
  destruct s as [|c1 r1]; [exists []; reflexivity|]. cbn [lstrip_with].
  destruct (p1 c1).
  { destruct (IH (List.length r1)) with (s := r1) as [pre Hpre];
      [subst n; simpl; lia | reflexivity |].
    exists (c1 :: pre). simpl. rewrite <- Hpre. reflexivity. }
  destruct r1 as [|c2 r2]; [exists []; reflexivity|].
  destruct (p2 c1 c2).
  { destruct (IH (List.length r2)) with (s := r2) as [pre Hpre];
      [subst n; simpl; lia | reflexivity |].
    exists (c1 :: c2 :: pre). simpl. rewrite <- Hpre. reflexivity. }
  destruct r2 as [|c3 r3]; [exists []; reflexivity|].
  destruct (p3 c1 c2 c3); [|exists []; reflexivity].
  destruct (IH (List.length r3)) with (s := r3) as [pre Hpre];
    [subst n; simpl; lia | reflexivity |].
  exists (c1 :: c2 :: c3 :: pre). simpl. rewrite <- Hpre. reflexivity.
Qed.

Lemma lstrip_with_clean (s : list ascii) :
  clean_start p1 p2 p3 (lstrip_with p1 p2 p3 s).
Proof.
  remember (List.length s) as n eqn:Hn. revert s Hn.
  induction n as [n IH] using lt_wf_ind. intros s Hn.
  destruct s as [|c1 r1]; [exact I|]. cbn [lstrip_with].
  destruct (p1 c1) eqn:H1.
  { apply (IH (List.length r1)); [subst n; simpl; lia | reflexivity]. }
  destruct r1 as [|c2 r2]; [simpl; auto|].
  destruct (p2 c1 c2) eqn:H2.
  { apply (IH (List.length r2)); [subst n; simpl; lia | reflexivity]. }
  destruct r2 as [|c3 r3]; [simpl; auto|].
  destruct (p3 c1 c2 c3) eqn:H3; [|simpl; auto].
  apply (IH (List.length r3)); [subst n; simpl; lia | reflexivity].
Qed.

Lemma clean_start_fixed (s : list ascii) :
  clean_start p1 p2 p3 s -> lstrip_with p1 p2 p3 s = s.
Proof.
  destruct s as [|c1 [|c2 [|c3 r3]]]; simpl; try reflexivity.
  - intros [-> _]. reflexivity.
  - intros [-> [-> _]]. reflexivity.
  - intros [-> [-> ->]]. reflexivity.
Qed.

Lemma clean_start_prefix (z t : list ascii) :
  clean_start p1 p2 p3 (z ++ t) -> clean_start p1 p2 p3 z.
Proof.
  destruct z as [|c1 [|c2 [|c3 r3]]]; simpl; auto.
  - intros [H _]. auto.
  - intros [H1 [H2 _]]. auto.
Qed.

Lemma clean_start_head (c : ascii) (r : list ascii) :
  clean_start p1 p2 p3 (c :: r) -> p1 c = false.
Proof. intros [H _]. exact H. Qed.

End StripWith.

Section StripFacts.

Lemma strip_bytes_infix (x : list ascii) :
  exists pre post, x = (pre ++ strip_bytes x ++ post)%list.
Proof.
  unfold strip_bytes, lstrip_bytes, rstrip_reversed.
  destruct (lstrip_with_suffix space1 space2 space3 x) as [pre Hpre].
  set (y := lstrip_with space1 space2 space3 x) in *.
  destruct (lstrip_with_suffix space1 (fun c2 c1 => space2 c1 c2)
              (fun c3 c2 c1 => space3 c1 c2 c3) (rev y)) as [post Hpost].
  exists pre, (rev post).
  rewrite <- rev_app_distr, <- Hpost, rev_involutive. exact Hpre.
Qed.

Lemma strip_bytes_stripped (x : list ascii) : stripped (strip_bytes x).
Proof.
  unfold stripped, strip_bytes, lstrip_bytes, rstrip_reversed.
  set (y := lstrip_with space1 space2 space3 x).
  destruct (lstrip_with_suffix space1 (fun c2 c1 => space2 c1 c2)
              (fun c3 c2 c1 => space3 c1 c2 c3) (rev y)) as [post Hpost].
  split.
  - apply (clean_start_prefix _ _ _ _ (rev post)).
    rewrite <- rev_app_distr, <- Hpost, rev_involutive.
    apply lstrip_with_clean.
  - rewrite rev_involutive. apply lstrip_with_clean.
Qed.

Lemma stripped_fixed (z : list ascii) : stripped z -> strip_bytes z = z.
Proof.
  intros [Hf Hb]. unfold strip_bytes, lstrip_bytes, rstrip_reversed.
  rewrite (clean_start_fixed _ _ _ z Hf).
  rewrite (clean_start_fixed _ _ _ (rev z) Hb).
  apply rev_involutive.
Qed.

Lemma strip_bytes_idempotent (x : list ascii) :
  strip_bytes (strip_bytes x) = strip_bytes x.
Proof. apply stripped_fixed, strip_bytes_stripped. Qed.

Lemma is_nl_space1 (c : ascii) : is_nl c = true -> space1 c = true.
Proof.
  unfold is_nl. intros H. apply Ascii.eqb_eq in H. subst c. reflexivity.
Qed.

Lemma stripped_first (c : ascii) (r : list ascii) :
  stripped (c :: r) -> is_nl c = false.
Proof.
  intros [Hf _]. apply clean_start_head in Hf.
  destruct (is_nl c) eqn:Hc; [|reflexivity].
  apply is_nl_space1 in Hc. congruence.
Qed.

Lemma stripped_last (r : list ascii) (c : ascii) :
  stripped (r ++ [c]) -> is_nl c = false.
Proof.
  intros [_ Hb]. rewrite rev_app_distr in Hb. cbn [rev app] in Hb.
  apply clean_start_head in Hb.
  destruct (is_nl c) eqn:Hc; [|reflexivity].
  apply is_nl_space1 in Hc. congruence.
Qed.

Lemma nn_free_app (a b : list ascii) :
  nn_free (a ++ b) = true -> nn_free a = true /\ nn_free b = true.
Proof.
  induction a as [|c a IH]; simpl; [auto|].
  destruct a as [|d a'].
  - simpl. destruct b as [|e b']; [auto|].
    intros H. apply andb_true_iff in H. tauto.
  - simpl app in *. intros H. apply andb_true_iff in H. destruct H as [Hcd H].
    destruct (IH H) as [Ha Hb]. split; [|exact Hb].
    apply andb_true_iff. split; assumption.
Qed.

Lemma nn_free_strip (x : list ascii) :
  nn_free x = true -> nn_free (strip_bytes x) = true.
Proof.
  intros H. destruct (strip_bytes_infix x) as [pre [post Hx]].
  rewrite Hx in H. apply nn_free_app in H. destruct H as [_ H].
  apply nn_free_app in H. tauto.
Qed.

End StripFacts.

Section SplitJoin.

Lemma split_nn_cons2 (c d : ascii) (r : list ascii) :
  split_nn (c :: d :: r)
  = if is_nl c && is_nl d then [] :: split_nn r
    else cons_head c (split_nn (d :: r)).
Proof. reflexivity. Qed.

Lemma split_nn_head (s : list ascii) :
  exists h t, split_nn s = h :: t
              /\ (h = [] \/ exists c r h', s = c :: r /\ h = c :: h').
Proof.
  destruct s as [|c [|d r]].
  - exists [], []. auto.
  - exists [c], []. split; [reflexivity|]. right. exists c, [], []. auto.
  - rewrite split_nn_cons2. destruct (is_nl c && is_nl d).
    + exists [], (split_nn r). auto.
    + destruct (split_nn (d :: r)) as [|h t]; cbn [cons_head].
      * exists [c], []. split; [reflexivity|]. right. exists c, (d :: r), []. auto.
      * exists (c :: h), t. split; [reflexivity|]. right.
        exists c, (d :: r), h. auto.
Qed.

(** No piece of a split holds two newlines in a row. *)
Lemma split_nn_pieces_free (s : list ascii) :
  forall x, In x (split_nn s) -> nn_free x = true.
Proof.
  remember (List.length s) as n eqn:Hn. revert s Hn.
  induction n as [n IH] using lt_wf_ind. intros s Hn x Hx.
  destruct s as [|c [|d r]].
  - destruct Hx as [<-|[]]. reflexivity.
  - destruct Hx as [<-|[]]. reflexivity.
  - rewrite split_nn_cons2 in Hx. destruct (is_nl c && is_nl d) eqn:Hcd.
    + destruct Hx as [<-|Hx]; [reflexivity|].
      apply (IH (List.length r)) with (s := r);
        [subst n; simpl; lia | reflexivity | exact Hx].
    + assert (Hrest : forall y, In y (split_nn (d :: r)) -> nn_free y = true).
      { intros y Hy. apply (IH (List.length (d :: r))) with (s := d :: r);
          [subst n; simpl; lia | reflexivity | exact Hy]. }
      destruct (split_nn_head (d :: r)) as [h [t [Hs Hh]]].
      rewrite Hs in Hx, Hrest. cbn [cons_head] in Hx.
      destruct Hx as [<-|Hx]; [|apply Hrest; right; exact Hx].
      pose proof (Hrest h (or_introl eq_refl)) as Hfree.
      destruct Hh as [->|[c' [r' [h' [Heq ->]]]]]; [reflexivity|].
      injection Heq as <- <-. cbn [nn_free]. rewrite Hcd. exact Hfree.
Qed.

Lemma split_nn_single (x : list ascii) :
  nn_free x = true -> split_nn x = [x].
Proof.
  induction x as [|c x IH]; [reflexivity|].
  destruct x as [|d x']; [reflexivity|].
  rewrite split_nn_cons2. cbn [nn_free]. intros H. apply andb_true_iff in H.
  destruct H as [Hcd Hx]. apply negb_true_iff in Hcd. rewrite Hcd.
  rewrite (IH Hx). reflexivity.
Qed.

Lemma is_nl_newline : is_nl newline = true.
Proof. reflexivity. Qed.

(** A piece without two newlines in a row that does not end in a
    newline is cut off exactly at the separator that follows it. *)
Lemma split_nn_app (x rest : list ascii) :
  nn_free x = true ->
  (forall r c, x = (r ++ [c])%list -> is_nl c = false) ->
  split_nn (x ++ newline :: newline :: rest) = x :: split_nn rest.
Proof.
  induction x as [|c x IH]; intros Hfree Hlast.
  - cbn [app]. rewrite split_nn_cons2, is_nl_newline. reflexivity.
  - assert (Hlast' : forall r c0, x = (r ++ [c0])%list -> is_nl c0 = false).
    { intros r c0 ->. apply (Hlast (c :: r)). reflexivity. }
    destruct x as [|d x'].
    + cbn [app]. rewrite split_nn_cons2, (Hlast [] c eq_refl). cbn [andb].
      rewrite split_nn_cons2, is_nl_newline. reflexivity.
    + cbn [nn_free] in Hfree. apply andb_true_iff in Hfree.
      destruct Hfree as [Hcd Hx]. apply negb_true_iff in Hcd.
      change ((c :: d :: x') ++ newline :: newline :: rest)%list
        with (c :: d :: (x' ++ newline :: newline :: rest))%list.
      rewrite split_nn_cons2, Hcd.
      change (d :: (x' ++ newline :: newline :: rest))%list
        with ((d :: x') ++ newline :: newline :: rest)%list.
      rewrite (IH Hx Hlast'). reflexivity.
Qed.

(** A section as [format_response] keeps it. *)
Lemma kept_sections (s : list ascii) :
  Forall (fun x => nn_free x = true /\ stripped x /\ x <> [])
         (filter nonempty (map strip_bytes (split_nn s))).
Proof.
  apply Forall_forall. intros x Hx. apply filter_In in Hx.
  destruct Hx as [Hx Hne]. apply in_map_iff in Hx.
  destruct Hx as [y [<- Hy]]. split; [|split].
  - apply nn_free_strip, (split_nn_pieces_free s). exact Hy.
  - apply strip_bytes_stripped.
  - intros H. rewrite H in Hne. discriminate.
Qed.

Lemma split_join (secs : list (list ascii)) :
  secs <> [] ->
  Forall (fun x => nn_free x = true /\ stripped x /\ x <> []) secs ->
  split_nn (join_nn secs) = secs.
Proof.
  induction secs as [|x secs IH]; intros Hne Hall; [contradiction|].
  inversion Hall as [|x0 l [Hfree [Hstr Hx]] Hrest]; subst.
  destruct secs as [|y secs'].
  - cbn [join_nn]. apply split_nn_single. exact Hfree.
  - change (join_nn (x :: y :: secs'))
      with (x ++ newline :: newline :: join_nn (y :: secs'))%list.
    rewrite split_nn_app.
    + rewrite IH; [reflexivity | discriminate | exact Hrest].
    + exact Hfree.
    + intros r c ->. apply (stripped_last r c). exact Hstr.
Qed.

Lemma keep_sections_again (secs : list (list ascii)) :
  Forall (fun x => nn_free x = true /\ stripped x /\ x <> []) secs ->
  filter nonempty (map strip_bytes secs) = secs.
Proof.
  induction 1 as [|x l [Hfree [Hstr Hx]] Hrest IH]; [reflexivity|].
  cbn [map filter]. rewrite (stripped_fixed x Hstr).
  destruct x as [|c x']; [contradiction|]. cbn [nonempty]. rewrite IH. reflexivity.
Qed.

Lemma format_response_bytes_idempotent (s : list ascii) :
  chat.format_response_bytes (chat.format_response_bytes s)
  = chat.format_response_bytes s.
Proof.
  unfold chat.format_response_bytes.
  pose proof (kept_sections s) as Hall.
  set (secs := filter nonempty (map strip_bytes (split_nn s))) in *.
  f_equal. f_equal. f_equal.
  rewrite split_nn_cons2, is_nl_newline. cbn [andb map filter].
  change (strip_bytes []) with (@nil ascii). cbn [nonempty].
  destruct secs as [|x l] eqn:Hsecs; [reflexivity|].
  rewrite split_join; [|discriminate | exact Hall].
  apply keep_sections_again. exact Hall.
Qed.

End SplitJoin.

(** ** Properties of the conversation loop *)

(** X12: [format_response] is idempotent: formatting a text that is
    already formatted gives it back unchanged. *)
Theorem X12_format_response_idempotent :
  forall (response : string),
    chat.format_response (chat.format_response response)
    = chat.format_response response.
Proof.
  intros response. unfold chat.format_response.
  rewrite list_ascii_of_string_of_list_ascii.
  rewrite format_response_bytes_idempotent. reflexivity.
Qed.



Lemma label_consistent (user_input : string) :
  chat.resource_type_of user_input
  = match chat.select_fetch user_input with
    | Some k => kind_label k
    | None => "resource"
    end.
Proof.
  unfold chat.resource_type_of, chat.select_fetch.
  destruct (str_in "pod" user_input); [reflexivity|].
  destruct (str_in "service" user_input); [reflexivity|].
  destruct (str_in "deployment" user_input); [reflexivity|].
  destruct (str_in "quota" user_input); [reflexivity|].
  destruct (str_in "configmap" user_input); reflexivity.
Qed.

Lemma has_upper_cons (c : ascii) (s : string) :
  has_upper (String c s) = is_upper_byte c || has_upper s.
Proof. reflexivity. Qed.

Lemma has_upper_drop (n : nat) : forall s,
  has_upper (drop n s) = true -> has_upper s = true.
Proof.
  induction n as [|n IH]; intros s H; [exact H|].
  destruct s as [|c s]; [exact H|].
  rewrite has_upper_cons. rewrite (IH s H). apply orb_true_r.
Qed.

Lemma has_upper_strip (s : string) :
  has_upper (strip s) = true -> has_upper s = true.
Proof.
  unfold has_upper, strip. rewrite list_ascii_of_string_of_list_ascii.
  intros H.
  destruct (strip_bytes_infix (list_ascii_of_string s)) as [pre [post Hs]].
  rewrite Hs, !existsb_app, H. rewrite orb_true_r. reflexivity.
Qed.

Section Loop.
Variables lower upper : string -> string.
Variable json_dumps : Json -> string.
Variable client : list message -> result string.

Let step := chat.step lower upper json_dumps client.

(** What a pass does when the line is a query. *)
Lemma step_query (line : string) (net : Upstream) (o : OpenshiftMCP.t) :
  is_query (lower (strip line)) = true ->
  step line net o
  = let user_input := lower (strip line) in
    match chat.select_fetch user_input with
    | None => mkTurn NoMatch true o [] []
    | Some k =>
        match run (OpenshiftMCP.fetch k o) net with
        | (Raise e, sent) => mkTurn (ApiError e) true o sent []
        | (Ok data, sent) =>
            if json_truthy data
            then
              let msgs := chat.messages_for upper json_dumps chat.system_prompt
                            user_input (Some data) in
              match client msgs with
              | Ok content =>
                  mkTurn (Results (OpenshiftMCP.get_current_context o)
                                  (chat.format_response content))
                         true o sent [msgs]
              | Raise e => mkTurn (ApiError e) true o sent [msgs]
              end
            else mkTurn NoMatch true o sent []
        end
    end.
Proof.
  unfold is_query, step, chat.step. intros H.
  apply andb_true_iff in H. destruct H as [H Huse].
  apply andb_true_iff in H. destruct H as [H Hclusters].
  apply andb_true_iff in H. destruct H as [Hexit Hhelp].
  apply negb_true_iff in Hexit, Hhelp, Hclusters, Huse.
  rewrite Hexit, Hhelp, Hclusters, Huse. cbv zeta.
  destruct (chat.select_fetch (lower (strip line))) as [k|]; [|reflexivity].
  destruct (run (OpenshiftMCP.fetch k o) net) as [[data|e] sent]; [|reflexivity].
  destruct (json_truthy data); [|reflexivity].
  unfold chat.get_openai_response.
  destruct (client _); reflexivity.
Qed.

(** What a pass does when the line is none. *)
Lemma step_command (line : string) (net : Upstream) (o : OpenshiftMCP.t) :
  is_query (lower (strip line)) = false ->
  requests (step line net o) = [] /\ asked (step line net o) = []
  /\ (registry (step line net o) = o
      \/ (startswith (lower (strip line)) "use " = true
          /\ registry (step line net o)
             = snd (OpenshiftMCP.switch_context o
                      (strip (drop 4 (lower (strip line))))))).
Proof.
  unfold is_query, step, chat.step. intros H.
  destruct (String.eqb (lower (strip line)) "exit"); [simpl; auto|].
  destruct (String.eqb (lower (strip line)) "help"); [simpl; auto|].
  destruct (String.eqb (lower (strip line)) "clusters"); [simpl; auto|].
  destruct (startswith (lower (strip line)) "use "); [|discriminate H].
  destruct (OpenshiftMCP.switch_context o _) as [[|] o'] eqn:Hs;
    simpl; auto.
Qed.

Lemma step_registry (line : string) (net : Upstream) (o : OpenshiftMCP.t) :
  registry (step line net o) = o
  \/ registry (step line net o)
     = snd (OpenshiftMCP.switch_context o (strip (drop 4 (lower (strip line))))).
Proof.
  destruct (is_query (lower (strip line))) eqn:Hq.
  - left. rewrite (step_query line net o Hq). cbv zeta.
    destruct (chat.select_fetch _); [|reflexivity].
    destruct (run _ net) as [[data|e] sent]; [|reflexivity].
    destruct (json_truthy data); [|reflexivity].
    destruct (client _); reflexivity.
  - destruct (step_command line net o Hq) as [_ [_ [H|[_ H]]]]; auto.
Qed.

End Loop.

(** X13: whenever a pass of the loop consults the text-generation
    service, a fetch chosen by the keywords of the command has just
    succeeded with a payload that counts as true, and the service is sent
    the system prompt, then the prompt built for that payload under the
    name of the kind fetched, then the command itself. *)
Theorem X13_summary_request :
  forall (lower upper : string -> string) (json_dumps : Json -> string)
         (client : list message -> result string)
         (line : string) (net : Upstream) (o : OpenshiftMCP.t)
         (msgs : list message),
    In msgs (asked (chat.step lower upper json_dumps client line net o)) ->
    exists k data,
      chat.select_fetch (lower (strip line)) = Some k
      /\ run (OpenshiftMCP.fetch k o) net
         = (Ok data, requests (chat.step lower upper json_dumps client line net o))
      /\ json_truthy data = true
      /\ msgs = [ ("system", chat.system_prompt);
                  ("system",
                   chat.format_openai_prompt upper json_dumps (kind_label k) data);
                  ("user", lower (strip line)) ].
Proof.
  intros lower upper json_dumps client line net o msgs Hin.
  destruct (is_query (lower (strip line))) eqn:Hq.
  - rewrite (step_query lower upper json_dumps client line net o Hq) in *.
    cbv zeta in *.
    pose proof (label_consistent (lower (strip line))) as Hlabel.
    destruct (chat.select_fetch (lower (strip line))) as [k|]; [|destruct Hin].
    destruct (run (OpenshiftMCP.fetch k o) net) as [[data|e] sent] eqn:Hrun;
      [|destruct Hin].
    destruct (json_truthy data) eqn:Ht; [|destruct Hin].
    exists k, data. split; [reflexivity|]. rewrite Hrun.
    assert (Hmsgs : msgs = chat.messages_for upper json_dumps chat.system_prompt
                             (lower (strip line)) (Some data)).
    { destruct (client _); destruct Hin as [<-|[]]; reflexivity. }
    split; [destruct (client _); reflexivity|]. split; [exact Ht|].
    rewrite Hmsgs. unfold chat.messages_for. rewrite Ht, Hlabel. reflexivity.
  - destruct (step_command lower upper json_dumps client line net o Hq)
      as [_ [Hasked _]].
    rewrite Hasked in Hin. destruct Hin.
Qed.

Lemma X13_summary_request_witness :
  exists k data,
    chat.select_fetch (lower_ascii (strip "Show PODS ")) = Some k
    /\ run (OpenshiftMCP.fetch k (OpenshiftMCP.__init__ [cluster_a; cluster_b]))
           upstream_ok
       = (Ok data,
          requests (sample_step "Show PODS " upstream_ok
                      (OpenshiftMCP.__init__ [cluster_a; cluster_b])))
    /\ json_truthy data = true
    /\ hd [] (asked (sample_step "Show PODS " upstream_ok
                       (OpenshiftMCP.__init__ [cluster_a; cluster_b])))
       = [ ("system", chat.system_prompt);
           ("system",
            chat.format_openai_prompt upper_ascii sample_dumps (kind_label k) data);
           ("user", lower_ascii (strip "Show PODS ")) ].
Proof.
  apply (X13_summary_request lower_ascii upper_ascii sample_dumps sample_client
           "Show PODS " upstream_ok
           (OpenshiftMCP.__init__ [cluster_a; cluster_b])).
  left. reflexivity.
Defined.





(** X15: when the fetch chosen for a query succeeds with a payload that
    counts as false in Python (an empty object or list, [null], zero, an
    empty string, [false]), the pass prints the message for an unknown
    command: the text-generation service is not consulted, although the
    request to the cluster was sent. *)
Theorem X15_falsy_payload_is_no_match :
  forall (lower upper : string -> string) (json_dumps : Json -> string)
         (client : list message -> result string)
         (line : string) (net : Upstream) (o : OpenshiftMCP.t)
         (k : ResourceKind) (data : Json) (sent : list Request),
    is_query (lower (strip line)) = true ->
    chat.select_fetch (lower (strip line)) = Some k ->
    run (OpenshiftMCP.fetch k o) net = (Ok data, sent) ->
    json_truthy data = false ->
    chat.step lower upper json_dumps client line net o
    = mkTurn NoMatch true o sent [].
Proof.
  intros lower upper json_dumps client line net o k data sent Hq Hk Hrun Hf.
  rewrite (step_query lower upper json_dumps client line net o Hq).
  cbv zeta. rewrite Hk, Hrun, Hf. reflexivity.
Qed.

Lemma X15_falsy_payload_is_no_match_witness :
  sample_step "pods" upstream_empty (OpenshiftMCP.__init__ [cluster_a])
  = mkTurn NoMatch true (OpenshiftMCP.__init__ [cluster_a])
           [request_for Pods cluster_a] [].
Proof.
  apply (X15_falsy_payload_is_no_match lower_ascii upper_ascii sample_dumps
           sample_client "pods" upstream_empty
           (OpenshiftMCP.__init__ [cluster_a]) Pods (JObject []));
    reflexivity.
Defined.

Lemma use_is_no_other_command (u : string) :
  startswith u "use " = true ->
  String.eqb u "exit" = false /\ String.eqb u "help" = false
  /\ String.eqb u "clusters" = false.
Proof.
  intros H. repeat split; apply String.eqb_neq; intros E; rewrite E in H;
    discriminate H.
Qed.

(** X16: a command that starts with [use ] only switches: it sends no
    request and consults no service, and the loop goes on.  The name is
    the rest of the command, stripped; when it is registered, the pass
    makes it current and reports the switch, otherwise it reports the
    name as not found and leaves the registry as it was. *)
Theorem X16_use_command :
  forall (lower upper : string -> string) (json_dumps : Json -> string)
         (client : list message -> result string)
         (line : string) (net : Upstream) (o : OpenshiftMCP.t),
    startswith (lower (strip line)) "use " = true ->
    let n := strip (drop 4 (lower (strip line))) in
    let t := chat.step lower upper json_dumps client line net o in
    requests t = [] /\ asked t = [] /\ goes_on t = true
    /\ (In n (OpenshiftMCP.list_contexts o) ->
          printed t = Switched n
          /\ registry t = {| OpenshiftMCP.contexts := OpenshiftMCP.contexts o;
                             OpenshiftMCP.current_context := Some n |})
    /\ (~ In n (OpenshiftMCP.list_contexts o) ->
          printed t = ClusterNotFound n /\ registry t = o).
Proof.
  intros lower upper json_dumps client line net o Huse n t.
  destruct (use_is_no_other_command _ Huse) as [He [Hh Hc]].
  subst n t. unfold chat.step. rewrite He, Hh, Hc, Huse.
  remember (strip (drop 4 (lower (strip line)))) as m eqn:Hm. clear Hm.
  unfold OpenshiftMCP.switch_context, OpenshiftMCP.list_contexts.
  destruct (PyDict.contains m (OpenshiftMCP.contexts o)) eqn:Hn;
    cbn [requests asked goes_on printed registry].
  - split; [reflexivity|]. split; [reflexivity|]. split; [reflexivity|].
    split; [intros _; split; reflexivity|].
    intros Hnot. apply contains_false_keys in Hnot. congruence.
  - split; [reflexivity|]. split; [reflexivity|]. split; [reflexivity|].
    split; [|intros _; split; reflexivity].
    intros Hin. apply contains_keys in Hin. congruence.
Qed.

Lemma X16_use_command_witness :
  requests (sample_step "  USE   b " upstream_ok
              (OpenshiftMCP.__init__ [cluster_a; cluster_b])) = []
  /\ printed (sample_step "  USE   b " upstream_ok
                (OpenshiftMCP.__init__ [cluster_a; cluster_b])) = Switched "b"
  /\ OpenshiftMCP.current_context
       (registry (sample_step "  USE   b " upstream_ok
                    (OpenshiftMCP.__init__ [cluster_a; cluster_b]))) = Some "b".
Proof.
  destruct (X16_use_command lower_ascii upper_ascii sample_dumps sample_client
              "  USE   b " upstream_ok
              (OpenshiftMCP.__init__ [cluster_a; cluster_b]) eq_refl)
    as [Hreq [_ [_ [Hin _]]]].
  destruct Hin as [Hp Hr]; [simpl; right; left; reflexivity|].
  split; [exact Hreq|]. split; [exact Hp|].
  unfold sample_step. rewrite Hr. reflexivity.
Defined.

Lemma step_keeps_upper_names_out
      (lower upper : string -> string) (json_dumps : Json -> string)
      (client : list message -> result string)
      (Hlower : forall s, has_upper (lower s) = false)
      (line : string) (net : Upstream) (o : OpenshiftMCP.t) (n : string) :
  has_upper n = true ->
  OpenshiftMCP.current_context
    (registry (chat.step lower upper json_dumps client line net o)) = Some n ->
  OpenshiftMCP.current_context o = Some n.
Proof.
  intros Hn Hcur.
  destruct (step_registry lower upper json_dumps client line net o) as [H|H];
    rewrite H in Hcur; [exact Hcur|].
  unfold OpenshiftMCP.switch_context in Hcur.
  destruct (PyDict.contains _ (OpenshiftMCP.contexts o)); [|exact Hcur].
  cbn [snd OpenshiftMCP.current_context] in Hcur.
  injection Hcur as Heq. rewrite <- Heq in Hn.
  apply has_upper_strip in Hn.
  apply (has_upper_drop 4 (lower (strip line))) in Hn.
  rewrite Hlower in Hn. discriminate Hn.
Qed.

(** X17: the name that [use] looks up is cut from a lower-cased line.
    Lower-casing leaves no ASCII capital letter, so no command can make
    current a cluster whose name holds one: in any session, such a name
    is current after a pass only if it was current from the start. *)
Theorem X17_capitalised_names_unreachable :
  forall (lower upper : string -> string) (json_dumps : Json -> string)
         (client : list message -> result string),
    (forall s, has_upper (lower s) = false) ->
    forall (lines : list (string * Upstream)) (o : OpenshiftMCP.t)
           (t : turn) (n : string),
      In t (chat.session lower upper json_dumps client lines o) ->
      has_upper n = true ->
      OpenshiftMCP.current_context (registry t) = Some n ->
      OpenshiftMCP.current_context o = Some n.
Proof.
  intros lower upper json_dumps client Hlower lines.
  induction lines as [|[line net] rest IH]; intros o t n Hin Hn Hcur;
    [destruct Hin|].
  cbn [chat.session] in Hin. destruct Hin as [<-|Hin].
  - apply (step_keeps_upper_names_out lower upper json_dumps client Hlower
             line net o n Hn Hcur).
  - destruct (goes_on _); [|destruct Hin].
    apply (step_keeps_upper_names_out lower upper json_dumps client Hlower
             line net o n Hn).
    apply (IH _ t n Hin Hn Hcur).
Qed.

Lemma lower_char_not_upper (c : ascii) : is_upper_byte (lower_char c) = false.
Proof.
  destruct c as [[|] [|] [|] [|] [|] [|] [|] [|]]; vm_compute; reflexivity.
Qed.

Lemma lower_ascii_no_upper (s : string) : has_upper (lower_ascii s) = false.
Proof.
  induction s as [|c s IH]; [reflexivity|].
  cbn [lower_ascii]. rewrite has_upper_cons, lower_char_not_upper, IH.
  reflexivity.
Qed.

Lemma X17_capitalised_names_unreachable_witness :
  OpenshiftMCP.current_context (OpenshiftMCP.__init__ [cluster_P; cluster_a])
  = Some "Prod"
  /\ printed (sample_step "use Prod" upstream_ok
                (OpenshiftMCP.__init__ [cluster_a; cluster_P]))
     = ClusterNotFound "prod".
Proof.
  split; [|reflexivity].
  apply (X17_capitalised_names_unreachable lower_ascii upper_ascii sample_dumps
           sample_client lower_ascii_no_upper
           [("use Prod", upstream_ok); ("pods", upstream_ok)]
           (OpenshiftMCP.__init__ [cluster_P; cluster_a])
           (sample_step "use Prod" upstream_ok
              (OpenshiftMCP.__init__ [cluster_P; cluster_a]))
           "Prod").
  - left. reflexivity.
  - reflexivity.
  - reflexivity.
Defined.

Lemma step_keeps_registry_sound
      (lower upper : string -> string) (json_dumps : Json -> string)
      (client : list message -> result string)
      (line : string) (net : Upstream) (o : OpenshiftMCP.t) :
  current_is_key o ->
  current_is_key (registry (chat.step lower upper json_dumps client line net o))
  /\ OpenshiftMCP.contexts
       (registry (chat.step lower upper json_dumps client line net o))
     = OpenshiftMCP.contexts o.
Proof.
  intros Hinv.
  destruct (step_registry lower upper json_dumps client line net o) as [-> | ->];
    [split; [exact Hinv | reflexivity]|].
  set (m := strip (drop 4 (lower (strip line)))).
  pose proof (perform_current_is_key (CallSwitch m) o Hinv) as Hp.
  pose proof (perform_contexts (CallSwitch m) o) as Hc.
  cbn [perform] in Hp, Hc.
  destruct (OpenshiftMCP.switch_context o m) as [b o']. split; assumption.
Qed.

(** X18: in a session that starts on a registry built from a non-empty
    profile list, after every pass of the loop, whatever the lines typed
    and whatever the cluster and the text-generation service answer, the
    current context is a registered name and the list of registered
    names is the one built at start-up. *)
Theorem X18_session_keeps_registry_sound :
  forall (lower upper : string -> string) (json_dumps : Json -> string)
         (client : list message -> result string)
         (c : OpenshiftContext) (cs : list OpenshiftContext)
         (lines : list (string * Upstream)) (t : turn),
    In t (chat.session lower upper json_dumps client lines
            (OpenshiftMCP.__init__ (c :: cs))) ->
    current_is_key (registry t)
    /\ OpenshiftMCP.list_contexts (registry t)
       = OpenshiftMCP.list_contexts (OpenshiftMCP.__init__ (c :: cs)).
Proof.
  intros lower upper json_dumps client c cs lines t.
  pose proof (init_current_is_key c cs) as Hinv.
  unfold OpenshiftMCP.list_contexts.
  generalize dependent (OpenshiftMCP.__init__ (c :: cs)).
  induction lines as [|[line net] rest IH]; intros o Hinv Hin; [destruct Hin|].
  cbn [chat.session] in Hin.
  destruct (step_keeps_registry_sound lower upper json_dumps client line net o Hinv)
    as [Hinv' Hctx].
  destruct Hin as [<-|Hin].
  - split; [exact Hinv' | rewrite Hctx; reflexivity].
  - destruct (goes_on _); [|destruct Hin].
    destruct (IH _ Hinv' Hin) as [H1 H2].
    split; [exact H1 | rewrite H2, Hctx; reflexivity].
Qed.

Lemma X18_session_keeps_registry_sound_witness :
  current_is_key
    (registry (sample_step "pods" upstream_403
                 (snd (OpenshiftMCP.switch_context
                         (OpenshiftMCP.__init__ [cluster_a; cluster_b]) "b"))))
  /\ OpenshiftMCP.list_contexts
       (registry (sample_step "pods" upstream_403
                    (snd (OpenshiftMCP.switch_context
                            (OpenshiftMCP.__init__ [cluster_a; cluster_b]) "b"))))
     = OpenshiftMCP.list_contexts (OpenshiftMCP.__init__ [cluster_a; cluster_b]).
Proof.
  apply (X18_session_keeps_registry_sound lower_ascii upper_ascii sample_dumps
           sample_client cluster_a [cluster_b]
           [("use b", upstream_ok); ("pods", upstream_403); ("exit", upstream_ok)]).
  right. left. reflexivity.
Defined.
